(** * eslint-plugin-angular: the [file-name] rule

    A shallow embedding of [src/rules/file-name.js] and the properties of
    its expected-filename derivation.

    Conventions of the embedding:
    - a JavaScript string is the list of its characters, written with
      Rocq's [ascii] and read as ASCII text: [toUpperCase] and [toLowerCase]
      act on the letters A-Z and a-z, and names with characters outside
      ASCII are not described;
    - numbers that the code computes with ([length], [indexOf], the
      arguments of [slice]) are integers in [Z];
    - a call that can throw returns a [result]: [Ok v], [Throw e], or
      [Unmodelled] where the run leaves the part of JavaScript that this
      file describes (the cases are listed where they arise);
    - a property read [obj[key]] on an object literal walks the prototype
      chain, so it sees the members of [Object.prototype] too. *)

From Stdlib Require Import List Ascii String ZArith Lia Bool.
Import ListNotations.

(** ** Strings *)

Definition jsstring := list ascii.

(** A literal, written as a Rocq string. *)
Definition js (s : string) : jsstring := list_ascii_of_string s.

Definition len (s : jsstring) : Z := Z.of_nat (List.length s).

Fixpoint str_eqb (a b : jsstring) : bool :=
  match a, b with
  | [], [] => true
  | x :: a', y :: b' => Ascii.eqb x y && str_eqb a' b'
  | _, _ => false
  end.

Definition code (c : ascii) : nat := nat_of_ascii c.

Definition between (lo hi c : ascii) : bool :=
  Nat.leb (code lo) (code c) && Nat.leb (code c) (code hi).

(** The character classes [[A-Z]] and [[a-z]]. *)
Definition is_upper (c : ascii) : bool := between "A"%char "Z"%char c.
Definition is_lower (c : ascii) : bool := between "a"%char "z"%char c.

Definition char_toUpperCase (c : ascii) : ascii :=
  if is_lower c then ascii_of_nat (code c - 32) else c.

Definition char_toLowerCase (c : ascii) : ascii :=
  if is_upper c then ascii_of_nat (code c + 32) else c.

Definition toLowerCase (s : jsstring) : jsstring := map char_toLowerCase s.

(** [s.slice(start, end)]: a negative index counts from the end, and both
    indices are clamped to the string. *)
Definition clamp_index (n k : Z) : Z :=
  if (k <? 0)%Z then Z.max (n + k) 0 else Z.min k n.

Definition slice (s : jsstring) (start stop : Z) : jsstring :=
  let from := clamp_index (len s) start in
  let to := clamp_index (len s) stop in
  firstn (Z.to_nat (to - from)) (skipn (Z.to_nat from) s).

(** [s.slice(start)] *)
Definition slice_from (s : jsstring) (start : Z) : jsstring :=
  slice s start (len s).

Fixpoint startsWith (p s : jsstring) : bool :=
  match p, s with
  | [], _ => true
  | x :: p', y :: s' => Ascii.eqb x y && startsWith p' s'
  | _ :: _, [] => false
  end.

Fixpoint indexOf_from (search s : jsstring) (i : Z) : Z :=
  if startsWith search s then i
  else match s with
       | [] => (-1)%Z
       | _ :: s' => indexOf_from search s' (i + 1)
       end.

(** [s.indexOf(search)]: the index of the first occurrence, or -1. *)
Definition indexOf (s search : jsstring) : Z := indexOf_from search s 0.

(** ** Exceptions *)

Inductive exn : Type := SyntaxError | TypeError.

Inductive result (A : Type) : Type :=
| Ok (a : A)
| Throw (e : exn)
| Unmodelled.

Arguments Ok {A} a.
Arguments Throw {A} e.
Arguments Unmodelled {A}.

Definition bind {A B : Type} (r : result A) (k : A -> result B) : result B :=
  match r with
  | Ok a => k a
  | Throw e => Throw e
  | Unmodelled => Unmodelled
  end.

Notation "x <- r ;; k" := (bind r (fun x => k))
  (at level 61, r at next level, right associativity).

(** ** Values and object literals *)

(** What a property read on one of the rule's two tables can yield: a
    string of the table, [undefined], or a member that the table inherits
    from [Object.prototype] (the prototype object itself, through
    [__proto__], or one of its built-in functions). *)
Inductive value : Type :=
| VUndefined
| VString (s : jsstring)
| VObjectPrototype
| VBuiltin (name : jsstring).

Definition object_literal := list (jsstring * jsstring).

Fixpoint own_property (o : object_literal) (key : jsstring) : option jsstring :=
  match o with
  | [] => None
  | (k, v) :: o' => if str_eqb k key then Some v else own_property o' key
  end.

Definition builtin_methods : list jsstring :=
  map js [ "toString"; "toLocaleString"; "valueOf"; "hasOwnProperty";
           "isPrototypeOf"; "propertyIsEnumerable"; "__defineGetter__";
           "__defineSetter__"; "__lookupGetter__"; "__lookupSetter__" ]%string.

Definition object_prototype_get (key : jsstring) : value :=
  if str_eqb key (js "__proto__") then VObjectPrototype
  else if str_eqb key (js "constructor") then VBuiltin (js "Object")
  else if existsb (str_eqb key) builtin_methods then VBuiltin key
  else VUndefined.

(** [o[key]] for an object literal [o]. *)
Definition get (o : object_literal) (key : jsstring) : value :=
  match own_property o key with
  | Some v => VString v
  | None => object_prototype_get key
  end.

(** The property key of an option that may be absent: [o[undefined]] reads
    the property named "undefined". *)
Definition property_key (k : option jsstring) : jsstring :=
  match k with
  | Some s => s
  | None => js "undefined"
  end.

(** String conversion, as [+] applies it. The text of a built-in function
    is the one Node prints. *)
Definition to_string (v : value) : jsstring :=
  match v with
  | VUndefined => js "undefined"
  | VString s => s
  | VObjectPrototype => js "[object Object]"
  | VBuiltin name => js "function " ++ name ++ js "() { [native code] }"
  end.

Definition truthy (v : value) : bool :=
  match v with
  | VUndefined => false
  | VString s => negb (str_eqb s [])
  | VObjectPrototype | VBuiltin _ => true
  end.

Definition is_undefined (v : value) : bool :=
  match v with
  | VUndefined => true
  | _ => false
  end.

(** ** The rule's tables *)

Definition fileEnding : jsstring := js ".js".

Definition separators : object_literal :=
  [ (js "dot", js "."); (js "dash", js "-"); (js "underscore", js "_") ].

Definition componentTypeMappings : object_literal :=
  [ (js "module", js "module");
    (js "controller", js "controller");
    (js "directive", js "directive");
    (js "filter", js "filter");
    (js "service", js "service");
    (js "factory", js "service");
    (js "provider", js "service");
    (js "value", js "service");
    (js "constant", js "constant") ].

(** ** filenameUtil *)

(** [value[0].toUpperCase() + value.slice(1)]; [value[0]] is [undefined]
    for the empty string, and the method call on it throws. *)
Definition firstToUpper (value : jsstring) : result jsstring :=
  match value with
  | [] => Throw TypeError
  | c :: _ => Ok (char_toUpperCase c :: slice_from value 1)
  end.

Definition firstToLower (value : jsstring) : result jsstring :=
  match value with
  | [] => Throw TypeError
  | c :: _ => Ok (char_toLowerCase c :: slice_from value 1)
  end.

Definition removeTypeSuffix (name type : jsstring) : result jsstring :=
  let nameTypeLengthDiff := (len name - len type)%Z in
  if (nameTypeLengthDiff <=? 0)%Z then Ok name
  else
    typeCamelCase <- firstToUpper type ;;
    if (indexOf name typeCamelCase =? nameTypeLengthDiff)%Z
    then Ok (slice name 0 nameTypeLengthDiff)
    else Ok name.

(** ** Regular expressions

    [removePrefix] builds a regular expression from the configured prefix.
    The patterns described here are those made of pattern characters, [.],
    an escaped syntax character, character classes written without escapes,
    the quantifiers [*], [+] and [?] (also lazy), the assertions [^] and [$],
    and alternation. A pattern with a group that is closed somewhere, a
    brace, a stray closing bracket or another escape is [Unmodelled]. *)

Inductive class_item : Type :=
| CChar (c : ascii)
| CRange (lo hi : ascii).

Inductive atom : Type :=
| AChar (c : ascii)
| AAny
| AClass (negated : bool) (items : list class_item).

Inductive quantifier : Type := Once | Star | Plus | Opt.

Inductive term : Type :=
| TStart
| TEnd
| TAtom (a : atom) (q : quantifier).

Definition alternative := list term.
Definition regex := list alternative.

Definition is_line_terminator (c : ascii) : bool :=
  Ascii.eqb c "010"%char || Ascii.eqb c "013"%char.

Definition class_item_accepts (it : class_item) (c : ascii) : bool :=
  match it with
  | CChar x => Ascii.eqb x c
  | CRange lo hi => between lo hi c
  end.

Definition atom_accepts (a : atom) (c : ascii) : bool :=
  match a with
  | AChar x => Ascii.eqb x c
  | AAny => negb (is_line_terminator c)
  | AClass negated items =>
      xorb negated (existsb (fun it => class_item_accepts it c) items)
  end.

(** Does the alternative match at the head of [s]? [at_start] tells whether
    the head of [s] is index 0 of the subject. *)
Fixpoint match_here (ts : alternative) (at_start : bool) (s : jsstring) : bool :=
  match ts with
  | [] => true
  | TStart :: ts' => at_start && match_here ts' at_start s
  | TEnd :: ts' =>
      match s with
      | [] => match_here ts' at_start s
      | _ :: _ => false
      end
  | TAtom a Once :: ts' =>
      match s with
      | c :: s' => atom_accepts a c && match_here ts' false s'
      | [] => false
      end
  | TAtom a Opt :: ts' =>
      match_here ts' at_start s
      || match s with
         | c :: s' => atom_accepts a c && match_here ts' false s'
         | [] => false
         end
  | TAtom a Star :: ts' =>
      (fix star (at_start : bool) (s : jsstring) : bool :=
         match_here ts' at_start s
         || match s with
            | c :: s' => atom_accepts a c && star false s'
            | [] => false
            end) at_start s
  | TAtom a Plus :: ts' =>
      match s with
      | c :: s' =>
          atom_accepts a c
          && (fix star (at_start : bool) (s : jsstring) : bool :=
                match_here ts' at_start s
                || match s with
                   | c :: s' => atom_accepts a c && star false s'
                   | [] => false
                   end) false s'
      | [] => false
      end
  end.

Fixpoint search (r : regex) (at_start : bool) (s : jsstring) : bool :=
  existsb (fun alt => match_here alt at_start s) r
  || match s with
     | [] => false
     | _ :: s' => search r false s'
     end.

(** [r.test(s)] for a regular expression without flags. *)
Definition test (r : regex) (s : jsstring) : bool := search r true s.

(** *** Reading a pattern *)

Inductive pmode : Type :=
| Idle
| Pending (a : atom)
| Quantified (a : atom) (q : quantifier)
| Escaped
| ClassOpen
| ClassBody (negated : bool) (items : list class_item)
            (last : option ascii) (dash : bool).

Record pstate : Type := mkPstate {
  alts : list alternative;   (* finished alternatives, last one first *)
  cur : list term;           (* terms of this alternative, last one first *)
  mode : pmode
}.

Definition syntax_chars : jsstring := js "^$\.*+?()[]{}|".

Definition is_syntax_char (c : ascii) : bool :=
  existsb (Ascii.eqb c) syntax_chars.

Definition flush (st : pstate) : pstate :=
  match mode st with
  | Pending a => mkPstate (alts st) (TAtom a Once :: cur st) Idle
  | Quantified a q => mkPstate (alts st) (TAtom a q :: cur st) Idle
  | _ => st
  end.

Definition opt_item (last : option ascii) : list class_item :=
  match last with
  | Some c => [CChar c]
  | None => []
  end.

Definition class_step (st : pstate) (negated : bool) (items : list class_item)
    (last : option ascii) (dash : bool) (c : ascii) : result pstate :=
  let continue m := Ok (mkPstate (alts st) (cur st) m) in
  if Ascii.eqb c "]"%char then
    continue (Pending (AClass negated
      (items ++ opt_item last ++ (if dash then [CChar "-"%char] else []))))
  else if Ascii.eqb c "\"%char then Unmodelled
  else
    match dash, last with
    | true, Some lo =>
        if Nat.leb (code lo) (code c)
        then continue (ClassBody negated (items ++ [CRange lo c]) None false)
        else Throw SyntaxError
    | _, _ =>
        match last with
        | Some _ =>
            if Ascii.eqb c "-"%char
            then continue (ClassBody negated items last true)
            else continue (ClassBody negated (items ++ opt_item last) (Some c) false)
        | None => continue (ClassBody negated items (Some c) false)
        end
    end.

Definition quantifier_of (c : ascii) : option quantifier :=
  if Ascii.eqb c "*"%char then Some Star
  else if Ascii.eqb c "+"%char then Some Plus
  else if Ascii.eqb c "?"%char then Some Opt
  else None.

Definition top_step (st : pstate) (c : ascii) (rest : jsstring) : result pstate :=
  match quantifier_of c with
  | Some q =>
      match mode st with
      | Pending a => Ok (mkPstate (alts st) (cur st) (Quantified a q))
      | Quantified a q0 =>
          if Ascii.eqb c "?"%char
          then Ok (mkPstate (alts st) (TAtom a q0 :: cur st) Idle)
          else Throw SyntaxError
      | _ => Throw SyntaxError
      end
  | None =>
      let st := flush st in
      let continue ts m := Ok (mkPstate (alts st) ts m) in
      if Ascii.eqb c "^"%char then continue (TStart :: cur st) Idle
      else if Ascii.eqb c "$"%char then continue (TEnd :: cur st) Idle
      else if Ascii.eqb c "|"%char
        then Ok (mkPstate (rev (cur st) :: alts st) [] Idle)
      else if Ascii.eqb c "."%char then continue (cur st) (Pending AAny)
      else if Ascii.eqb c "\"%char then continue (cur st) Escaped
      else if Ascii.eqb c "["%char then continue (cur st) ClassOpen
      else if Ascii.eqb c "("%char
        then if existsb (Ascii.eqb ")"%char) rest then Unmodelled
             else Throw SyntaxError
      else if Ascii.eqb c ")"%char then Throw SyntaxError
      else if is_syntax_char c then Unmodelled
      else continue (cur st) (Pending (AChar c))
  end.

Definition step (st : pstate) (c : ascii) (rest : jsstring) : result pstate :=
  match mode st with
  | Escaped =>
      if is_syntax_char c
      then Ok (mkPstate (alts st) (cur st) (Pending (AChar c)))
      else Unmodelled
  | ClassOpen =>
      if Ascii.eqb c "^"%char
      then Ok (mkPstate (alts st) (cur st) (ClassBody true [] None false))
      else class_step st false [] None false c
  | ClassBody negated items last dash => class_step st negated items last dash c
  | _ => top_step st c rest
  end.

Definition finish (st : pstate) : result regex :=
  match mode st with
  | Escaped | ClassOpen | ClassBody _ _ _ _ => Throw SyntaxError
  | _ => let st := flush st in Ok (rev (rev (cur st) :: alts st))
  end.

Fixpoint parse_from (st : pstate) (s : jsstring) : result regex :=
  match s with
  | [] => finish st
  | c :: rest => st' <- step st c rest ;; parse_from st' rest
  end.

(** [new RegExp(pattern)] *)
Definition RegExp (pattern : jsstring) : result regex :=
  parse_from (mkPstate [] [] Idle) pattern.

(** [new RegExp(pattern).test(s)] *)
Definition RegExp_test (pattern s : jsstring) : result bool :=
  r <- RegExp pattern ;; Ok (test r s).

(** *** Replacement *)

Definition is_digit (c : ascii) : bool := between "0"%char "9"%char c.

Definition starts_with_digit (s : jsstring) : bool :=
  match s with
  | c :: _ => is_digit c
  | [] => false
  end.

(** The replacement text for one match of a regular expression with two
    groups. [$1] and [$2] stand for the groups and [$$] for a dollar; any
    other use of a dollar is [Unmodelled]. *)
Fixpoint getSubstitution (replacement : jsstring) (group1 group2 : jsstring)
    : result jsstring :=
  match replacement with
  | [] => Ok []
  | c :: tl =>
      if Ascii.eqb c "$"%char then
        match tl with
        | d :: rest =>
            if Ascii.eqb d "$"%char then
              r <- getSubstitution rest group1 group2 ;; Ok ("$"%char :: r)
            else if starts_with_digit rest then Unmodelled
            else if Ascii.eqb d "1"%char then
              r <- getSubstitution rest group1 group2 ;; Ok (group1 ++ r)
            else if Ascii.eqb d "2"%char then
              r <- getSubstitution rest group1 group2 ;; Ok (group2 ++ r)
            else Unmodelled
        | [] => Unmodelled
        end
      else r <- getSubstitution tl group1 group2 ;; Ok (c :: r)
  end.

(** [s.replace(/([a-z])([A-Z])/g, replacement)]: the matches are found from
    left to right and do not overlap. *)
Fixpoint replace_lower_upper (s replacement : jsstring) : result jsstring :=
  match s with
  | a :: ((b :: rest) as tl) =>
      if is_lower a && is_upper b then
        sub <- getSubstitution replacement [a] [b] ;;
        r <- replace_lower_upper rest replacement ;;
        Ok (sub ++ r)
      else
        r <- replace_lower_upper tl replacement ;; Ok (a :: r)
  | _ => Ok s
  end.

(** ** The options of the rule *)

Record options : Type := mkOptions {
  nameStyle : option jsstring;
  typeSeparator : option jsstring;
  ignoreTypeSuffix : bool;
  ignorePrefix : option jsstring
}.

(** [{}] *)
Definition no_options : options := mkOptions None None false None.

(** A string option is truthy when it is present and not empty. *)
Definition present (o : option jsstring) : bool :=
  match o with
  | Some s => negb (str_eqb s [])
  | None => false
  end.

(** ** filenameUtil, continued *)

Definition removePrefix (name : jsstring) (opts : options) : result jsstring :=
  let prefix_text := to_string (match ignorePrefix opts with
                                | Some p => VString p
                                | None => VUndefined
                                end) in
  matched <- RegExp_test (js "^" ++ prefix_text ++ js "[A-Z]") name ;;
  if matched then
    match ignorePrefix opts with
    | Some p => firstToLower (slice_from name (len p))
    | None => Throw TypeError
    end
  else Ok name.

Definition transformComponentName (name : jsstring) (opts : options)
    : result jsstring :=
  let nameSeparator := get separators (property_key (nameStyle opts)) in
  if truthy nameSeparator then
    let replacement := js "$1" ++ to_string nameSeparator ++ js "$2" in
    replaced <- replace_lower_upper name replacement ;;
    Ok (toLowerCase replaced)
  else Ok name.

Definition createExpectedName (name type : jsstring) (opts : options)
    : result jsstring :=
  let typeSeparator := get separators (property_key (typeSeparator opts)) in
  name <- (if ignoreTypeSuffix opts then removeTypeSuffix name type
           else Ok name) ;;
  name <- (match ignorePrefix opts with
           | Some p =>
               if negb (str_eqb p []) && (0 <? len p)%Z
               then removePrefix name opts else Ok name
           | None => Ok name
           end) ;;
  name <- (if present (nameStyle opts) then transformComponentName name opts
           else Ok name) ;;
  let name := if negb (is_undefined typeSeparator)
              then name ++ to_string typeSeparator ++ type
              else name in
  Ok (name ++ fileEnding).

(** The name that [createExpectedName] has after its three optional
    steps, before the separator, the type and the ending are appended. *)
Definition normalizedName (name type : jsstring) (opts : options)
    : result jsstring :=
  name <- (if ignoreTypeSuffix opts then removeTypeSuffix name type
           else Ok name) ;;
  name <- (match ignorePrefix opts with
           | Some p =>
               if negb (str_eqb p []) && (0 <? len p)%Z
               then removePrefix name opts else Ok name
           | None => Ok name
           end) ;;
  if present (nameStyle opts) then transformComponentName name opts
  else Ok name.

(** ** The rule *)

(** The parts of a call expression that the rule reads:
    [node.arguments[0].value], [node.callee.property.name] and
    [node.callee.object.name] (absent when the object is not an
    identifier). *)
Record callee : Type := mkCallee {
  property_name : jsstring;
  object_name : option jsstring
}.

Record node : Type := mkNode {
  node_callee : callee;
  argument0_value : jsstring
}.

(** What one visit of a call expression does: it returns at once, or it
    computes [expectedName], compares it with the file name and reports
    when they differ. *)
Inductive visit : Type :=
| Skipped
| Compared (expectedName : jsstring) (reports : list jsstring).

Definition double_quote : ascii := "034"%char.

(** The report's text, [Filename must be "{{expectedName}}"], filled in. *)
Definition message (expectedName : jsstring) : jsstring :=
  js "Filename must be " ++ [double_quote] ++ expectedName ++ [double_quote].

Section Rule.

(** [utils.isAngularComponent] and [utils.isMemberExpression] come from
    [./utils/utils]; the rule only uses their answers. *)
Variable isAngularComponent : node -> bool.
Variable isMemberExpression : callee -> bool.

(** [options] is [context.options[0] || {}] and [filename] is
    [path.basename(context.getFilename())]. A type that is neither a
    string nor [undefined] (a member of [Object.prototype], for a
    property name such as [toString]) is [Unmodelled]. *)
Definition CallExpression (opts : options) (filename : jsstring) (n : node)
    : result visit :=
  if isAngularComponent n && isMemberExpression (node_callee n) then
    let name := argument0_value n in
    match get componentTypeMappings (property_name (node_callee n)) with
    | VUndefined => Ok Skipped
    | VString type =>
        if str_eqb type (js "service")
           && match object_name (node_callee n) with
              | Some o => str_eqb o (js "$provide")
              | None => false
              end
        then Ok Skipped
        else
          expectedName <- createExpectedName name type opts ;;
          if negb (str_eqb expectedName filename)
          then Ok (Compared expectedName [message expectedName])
          else Ok (Compared expectedName [])
    | VObjectPrototype | VBuiltin _ => Unmodelled
    end
  else Ok Skipped.

End Rule.

(** [path.basename(p)] for POSIX paths: the last segment that is not
    empty. *)
Fixpoint last_segment (segment last p : jsstring) : jsstring :=
  match p with
  | [] => match segment with [] => last | _ => segment end
  | c :: p' =>
      if Ascii.eqb c "/"%char
      then last_segment [] (match segment with [] => last | _ => segment end) p'
      else last_segment (segment ++ [c]) last p'
  end.

Definition basename (p : jsstring) : jsstring := last_segment [] [] p.

(** The context that ESLint hands to the rule: [context.options[0]] (absent
    when the rule is configured without an object) and
    [context.getFilename()]. *)
Record context : Type := mkContext {
  options0 : option options;
  getFilename : jsstring
}.

(** The rule: it fixes [options] and [filename] and returns the handler. *)
Definition rule (isAngularComponent : node -> bool)
    (isMemberExpression : callee -> bool) (ctx : context)
    : node -> result visit :=
  let opts := match options0 ctx with
              | Some o => o
              | None => no_options
              end in
  let filename := basename (getFilename ctx) in
  CallExpression isAngularComponent isMemberExpression opts filename.

Definition reports_of (v : visit) : list jsstring :=
  match v with
  | Skipped => []
  | Compared _ reports => reports
  end.

(** The verdict of the spec, read off a visit. *)
Definition pass (v : visit) : option bool :=
  match v with
  | Skipped => None
  | Compared _ reports => Some (match reports with [] => true | _ => false end)
  end.

Definition expected (v : visit) : option jsstring :=
  match v with
  | Skipped => None
  | Compared expectedName _ => Some expectedName
  end.

Definition always {A : Type} (_ : A) : bool := true.

(** ** Reference definitions

    The two transformations as the specification words them, to be
    compared with [removeTypeSuffix] and [transformComponentName]. *)

(** stripTypeSuffix: the name is returned when it is not longer than the
    type token; otherwise the token is capitalized and, when it appears in
    the name starting at position [name.length - typeToken.length], the
    prefix before that position is returned. *)
Definition stripTypeSuffix_reference (name typeToken : jsstring)
    : result jsstring :=
  if (len name <=? len typeToken)%Z then Ok name
  else
    capitalized <- firstToUpper typeToken ;;
    let position := (len name - len typeToken)%Z in
    if startsWith capitalized (slice_from name position)
    then Ok (slice name 0 position)
    else Ok name.

(** convertCase with a separator character: the character is put at every
    place where a lower-case letter is directly followed by an upper-case
    one, and the whole is lower-cased. *)
Fixpoint insert_at_boundaries (sep name : jsstring) : jsstring :=
  match name with
  | a :: tl =>
      match tl with
      | b :: _ =>
          if is_lower a && is_upper b
          then a :: sep ++ insert_at_boundaries sep tl
          else a :: insert_at_boundaries sep tl
      | [] => [a]
      end
  | [] => []
  end.

(** The separator table of the specification. *)
Definition separator_char (style : option jsstring) : option ascii :=
  match style with
  | Some s =>
      if str_eqb s (js "dash") then Some "-"%char
      else if str_eqb s (js "dot") then Some "."%char
      else if str_eqb s (js "underscore") then Some "_"%char
      else None
  | None => None
  end.

Definition convertCase_reference (name : jsstring) (style : option jsstring)
    : jsstring :=
  match separator_char style with
  | Some sep => toLowerCase (insert_at_boundaries [sep] name)
  | None => name
  end.

(** The texts that a truthy read of [separators] can contribute to the
    replacement string: the three separators, and the string forms of the
    members of [Object.prototype]. *)
Definition separator_texts : list jsstring :=
  [ js "."; js "-"; js "_"; to_string VObjectPrototype;
    to_string (VBuiltin (js "Object")) ]
  ++ map (fun name => to_string (VBuiltin name)) builtin_methods.

(** stripPrefix: the name literally begins with the prefix, and an
    upper-case letter follows it directly. *)
Definition begins_with_and_upper (p name : jsstring) : bool :=
  startsWith p name
  && match skipn (List.length p) name with
     | c :: _ => is_upper c
     | [] => false
     end.

(** The terms that a prefix without syntax characters is read as, and the
    class [[A-Z]] that ends the pattern. *)
Definition literal_term (c : ascii) : term := TAtom (AChar c) Once.

Definition upper_class : term := TAtom (AClass false [CRange "A" "Z"]) Once.

(** The kinds that the table maps to the token "service". *)
Definition service_kinds : list jsstring :=
  map js [ "service"; "factory"; "provider"; "value" ]%string.

(** A name without upper-case letters. *)
Definition lower_cased (name : jsstring) : bool :=
  forallb (fun c => negb (is_upper c)) name.

(** A prefix that is plain text for a regular expression. *)
Definition literal_text (p : jsstring) : bool :=
  forallb (fun c => negb (is_syntax_char c)) p.

(** The component declarations of [module.exports.examples], each with its options,
    file name, kind, object and declared name; the invalid ones with the
    expected name of their error message. *)
Definition test_options (style separator : option string) (suffix : bool)
    (prefix : option string) : option options :=
  Some (mkOptions (option_map js style) (option_map js separator) suffix
          (option_map js prefix)).

Definition test_node (kind object name : string) : node :=
  mkNode (mkCallee (js kind) (Some (js object))) (js name).

Definition valid_examples : list (option options * string * node) :=
  [ (None, "myModule.js", test_node "module" "angular" "myModule");
    (None, "someFilter.js", test_node "filter" "app" "someFilter");
    (None, "SomeController.js", test_node "controller" "app" "SomeController");
    (None, "myUtils.js", test_node "service" "app" "myUtils");
    (None, "myUtils.js", test_node "factory" "app" "myUtils");
    (None, "beautifulDirective.js",
     test_node "directive" "app" "beautifulDirective");
    (test_options None (Some "dot") false None, "src/app/myFilter.filter.js",
     test_node "filter" "app" "myFilter");
    (None, "src/app/myApp.module.js",
     test_node "value" "$provide" "accountsService");
    (test_options None (Some "dash") false None, "src/app/someUtil-service.js",
     test_node "factory" "app" "someUtil");
    (test_options None (Some "underscore") false None,
     "src/app/SomeController_controller.js",
     test_node "controller" "app" "SomeController");
    (test_options None (Some "dot") true None, "src/app/Avengers.controller.js",
     test_node "controller" "app" "AvengersController");
    (test_options None (Some "dot") true None, "src/app/avengers.service.js",
     test_node "factory" "app" "avengersService");
    (test_options None (Some "dot") true None, "src/app/avengersApi.service.js",
     test_node "factory" "app" "avengersApi");
    (test_options None (Some "dot") true None, "src/app/utils.service.js",
     test_node "factory" "app" "utils");
    (test_options (Some "dash") (Some "dash") false None,
     "src/app/app-utils-service.js", test_node "factory" "app" "appUtils");
    (test_options (Some "underscore") (Some "dot") false None,
     "src/app/my_tab.directive.js", test_node "directive" "app" "myTab");
    (test_options None (Some "dot") true (Some "xp"),
     "src/app/asset.service.js", test_node "factory" "angular" "xpAssetService");
    (test_options None (Some "dash") false (Some "st"),
     "src/app/appUtils-service.js", test_node "factory" "angular" "stAppUtils");
    (test_options None (Some "underscore") false (Some "st"),
     "staging_service.js", test_node "factory" "angular" "staging") ]%string.

Definition invalid_examples
    : list (option options * string * node * string) :=
  [ (None, "src/app/filters.js", test_node "filter" "app" "myFilter",
     "myFilter.js");
    (test_options None (Some "dot") false None, "src/app/myFilter.js",
     test_node "filter" "app" "myFilter", "myFilter.filter.js");
    (test_options None (Some "underscore") false None,
     "src/someService_controller.js", test_node "factory" "app" "someService",
     "someService_service.js");
    (test_options None (Some "dot") false None, "src/app/Avengers.controller.js",
     test_node "controller" "app" "AvengersController",
     "AvengersController.controller.js");
    (test_options None (Some "dot") true None,
     "src/app/AvengersController.controller.js",
     test_node "controller" "app" "AvengersController",
     "Avengers.controller.js");
    (test_options (Some "dash") (Some "dot") false None,
     "src/app/avangerProfile.directive.js",
     test_node "directive" "app" "avangerProfile",
     "avanger-profile.directive.js");
    (test_options None (Some "dot") true (Some "xp"),
     "src/app/xpAsset.service.js", test_node "factory" "angular" "xpAssetService",
     "asset.service.js") ]%string.


(** The string without the occurrences of one character. *)
Definition remove_char (c : ascii) (s : jsstring) : jsstring :=
  filter (fun x => negb (Ascii.eqb x c)) s.

(** ** The [angularelement] rule

    [src/rules/angularelement.js]: the rule reads [node.callee.name], which
    is absent when the callee is not an identifier (a member call such as
    [angular.element(...)]), and reports the calls of [$] and [jQuery]. *)
Module AngularElement.

Definition message : jsstring :=
  js "You should use angular.element instead of the jQuery $ object".

Definition CallExpression (callee_name : option jsstring) : list jsstring :=
  match callee_name with
  | Some name =>
      if str_eqb name (js "$") || str_eqb name (js "jQuery")
      then [message] else []
  | None => []
  end.

End AngularElement.

(** * Properties *)

(** ** The examples of the rule's own test list *)

Example valid_examples_pass :
  Forall (fun '(opts, filename, n) =>
            exists v, rule always always (mkContext opts (js filename)) n = Ok v
                      /\ reports_of v = [])
         valid_examples.
Proof. repeat constructor; eexists; split; reflexivity. Qed.

Example invalid_examples_report :
  Forall (fun '(opts, filename, n, expectedName) =>
            exists v, rule always always (mkContext opts (js filename)) n = Ok v
                      /\ reports_of v = [message (js expectedName)])
         invalid_examples.
Proof. repeat constructor; eexists; split; reflexivity. Qed.

Example removeTypeSuffix_AvengersController :
  removeTypeSuffix (js "AvengersController") (js "controller") = Ok (js "Avengers").
Proof. reflexivity. Qed.

Example removeTypeSuffix_utils :
  removeTypeSuffix (js "utils") (js "service") = Ok (js "utils").
Proof. reflexivity. Qed.

Example removeTypeSuffix_ServiceLocatorService :
  removeTypeSuffix (js "ServiceLocatorService") (js "service")
  = Ok (js "ServiceLocatorService").
Proof. reflexivity. Qed.

Example RegExp_st :
  RegExp (js "^st[A-Z]")
  = Ok [[TStart; TAtom (AChar "s") Once; TAtom (AChar "t") Once;
         TAtom (AClass false [CRange "A" "Z"]) Once]].
Proof. reflexivity. Qed.

Example RegExp_unterminated_group : RegExp (js "^([A-Z]") = Throw SyntaxError.
Proof. reflexivity. Qed.

Example RegExp_nothing_to_repeat : RegExp (js "^*[A-Z]") = Throw SyntaxError.
Proof. reflexivity. Qed.

Example RegExp_class_absorbs : 
  RegExp (js "^[[A-Z]")
  = Ok [[TStart; TAtom (AClass false [CChar "["; CRange "A" "Z"]) Once]].
Proof. reflexivity. Qed.

Example removePrefix_stAppUtils :
  removePrefix (js "stAppUtils") (mkOptions None None false (Some (js "st")))
  = Ok (js "appUtils").
Proof. reflexivity. Qed.

Example removePrefix_staging :
  removePrefix (js "staging") (mkOptions None None false (Some (js "st")))
  = Ok (js "staging").
Proof. reflexivity. Qed.

Example transformComponentName_avangerProfile :
  transformComponentName (js "avangerProfile")
    (mkOptions (Some (js "dash")) None false None)
  = Ok (js "avanger-profile").
Proof. reflexivity. Qed.

Example visit_filters_js :
  CallExpression always always no_options (js "filters.js")
    (mkNode (mkCallee (js "filter") (Some (js "app"))) (js "myFilter"))
  = Ok (Compared (js "myFilter.js") [js "Filename must be " ++ [double_quote] ++ js "myFilter.js" ++ [double_quote]]).
Proof. reflexivity. Qed.

Example visit_provide_value :
  CallExpression always always no_options (js "myApp.module.js")
    (mkNode (mkCallee (js "value") (Some (js "$provide"))) (js "accountsService"))
  = Ok Skipped.
Proof. reflexivity. Qed.

(** ** Strings: equality, prefixes and slices *)

Lemma str_eqb_eq (a b : jsstring) : str_eqb a b = true <-> a = b.
Proof.
  revert b; induction a as [|x a IH]; intros [|y b]; simpl;
    try (split; [discriminate | discriminate]); try tauto.
  rewrite andb_true_iff, Ascii.eqb_eq, IH.
  split; [intros [-> ->]; reflexivity | intros H; inversion H; auto].
Qed.

Lemma str_eqb_neq (a b : jsstring) : str_eqb a b = false <-> a <> b.
Proof.
  rewrite <- str_eqb_eq. destruct (str_eqb a b); split; congruence.
Qed.

Lemma startsWith_iff (p s : jsstring) :
  startsWith p s = true <-> exists r, s = p ++ r.
Proof.
  revert s; induction p as [|x p IH]; intros s; simpl.
  - split; [exists s; reflexivity | reflexivity].
  - destruct s as [|y s].
    + split; [discriminate | intros [r H]; discriminate].
    + rewrite andb_true_iff, Ascii.eqb_eq, IH. split.
      * intros [-> [r ->]]. exists r; reflexivity.
      * intros [r H]. inversion H; subst. split; [reflexivity | exists r; reflexivity].
Qed.

Lemma len_nonneg (s : jsstring) : (0 <= len s)%Z.
Proof. unfold len; lia. Qed.

Lemma slice_prefix (s : jsstring) (d : Z) :
  (0 <= d <= len s)%Z -> slice s 0 d = firstn (Z.to_nat d) s.
Proof.
  intros H. unfold slice, clamp_index.
  destruct (Z.ltb_spec 0 0); [lia|]. destruct (Z.ltb_spec d 0); [lia|].
  rewrite (Z.min_l 0 (len s)) by apply len_nonneg.
  rewrite (Z.min_l d (len s)) by lia.
  simpl skipn. f_equal. lia.
Qed.

Lemma slice_from_skipn (s : jsstring) (k : Z) :
  (0 <= k)%Z -> slice_from s k = skipn (Z.to_nat k) s.
Proof.
  intros H. unfold slice_from, slice, clamp_index.
  pose proof (len_nonneg s) as Hs.
  destruct (Z.ltb_spec k 0); [lia|]. destruct (Z.ltb_spec (len s) 0); [lia|].
  rewrite (Z.min_l (len s)) by lia.
  destruct (Z.le_gt_cases k (len s)) as [Hk|Hk].
  - rewrite (Z.min_l k) by lia.
    apply firstn_all2. rewrite length_skipn. unfold len in *. lia.
  - rewrite (Z.min_r k) by lia.
    rewrite !skipn_all2 by (unfold len in *; lia). apply firstn_nil.
Qed.

Lemma slice_from_1 (c : ascii) (s : jsstring) : slice_from (c :: s) 1 = s.
Proof. rewrite slice_from_skipn by lia. reflexivity. Qed.

Lemma firstToUpper_cons (c : ascii) (s : jsstring) :
  firstToUpper (c :: s) = Ok (char_toUpperCase c :: s).
Proof. unfold firstToUpper. rewrite slice_from_1. reflexivity. Qed.

Lemma firstToLower_cons (c : ascii) (s : jsstring) :
  firstToLower (c :: s) = Ok (char_toLowerCase c :: s).
Proof. unfold firstToLower. rewrite slice_from_1. reflexivity. Qed.

(** ** removeTypeSuffix *)

(** A name that is not longer than the type token is returned as it is,
    also for the empty token. *)
Lemma removeTypeSuffix_short (name type : jsstring) :
  (len name <= len type)%Z -> removeTypeSuffix name type = Ok name.
Proof.
  intros H. unfold removeTypeSuffix.
  destruct (Z.leb_spec (len name - len type) 0); [reflexivity | lia].
Qed.

(** The code strips exactly when the FIRST occurrence of the capitalized
    token is at position [name.length - type.length]. *)
Lemma removeTypeSuffix_long (name : jsstring) (c : ascii) (t : jsstring) :
  (len (c :: t) < len name)%Z ->
  removeTypeSuffix name (c :: t)
  = Ok (if (indexOf name (char_toUpperCase c :: t) =? len name - len (c :: t))%Z
        then firstn (List.length name - List.length (c :: t)) name
        else name).
Proof.
  intros H. unfold removeTypeSuffix.
  destruct (Z.leb_spec (len name - len (c :: t)) 0); [lia|].
  rewrite firstToUpper_cons. cbn [bind].
  destruct (_ =? _)%Z; [|reflexivity].
  rewrite slice_prefix by (pose proof (len_nonneg (c :: t)); lia).
  do 2 f_equal. unfold len. lia.
Qed.

(** With a type token that is not empty the function returns. *)
Lemma removeTypeSuffix_returns (name type : jsstring) :
  type <> [] -> exists kept, removeTypeSuffix name type = Ok kept.
Proof.
  intros Htype. destruct type as [|c t]; [congruence|].
  destruct (Z.le_gt_cases (len name) (len (c :: t))) as [Hle|Hgt].
  - rewrite removeTypeSuffix_short by assumption. eauto.
  - rewrite removeTypeSuffix_long by lia. eauto.
Qed.

(** C10: for every name and every type token (any non-empty string, so
    each token of the kind table), [removeTypeSuffix] returns, without
    throwing, a prefix of the name: the whole name, or exactly its first
    [name.length - type.length] characters, kept as they are. What is cut
    off is nothing or one stretch as long as the token. *)
Theorem removeTypeSuffix_prefix (name type : jsstring) :
  type <> [] ->
  exists kept cut,
    removeTypeSuffix name type = Ok kept
    /\ name = kept ++ cut
    /\ (kept = name
        \/ (kept = firstn (List.length name - List.length type) name
            /\ List.length cut = List.length type)).
Proof.
  intros Htype. destruct type as [|c t]; [congruence|].
  destruct (Z.le_gt_cases (len name) (len (c :: t))) as [Hle|Hgt].
  - exists name, []. rewrite removeTypeSuffix_short by assumption.
    rewrite app_nil_r. auto.
  - rewrite removeTypeSuffix_long by lia.
    destruct (_ =? _)%Z.
    + exists (firstn (List.length name - List.length (c :: t)) name),
             (skipn (List.length name - List.length (c :: t)) name).
      split; [reflexivity|]. split; [symmetry; apply firstn_skipn|].
      right. split; [reflexivity|].
      rewrite length_skipn. unfold len in Hgt. lia.
    + exists name, []. rewrite app_nil_r. auto.
Qed.

Lemma removeTypeSuffix_prefix_witness :
  exists kept cut,
    removeTypeSuffix (js "AvengersController") (js "controller") = Ok kept
    /\ js "AvengersController" = kept ++ cut
    /\ (kept = js "AvengersController"
        \/ (kept = firstn (List.length (js "AvengersController")
                           - List.length (js "controller")) (js "AvengersController")
            /\ List.length cut = List.length (js "controller"))).
Proof.
  apply (removeTypeSuffix_prefix (js "AvengersController") (js "controller")).
  discriminate.
Defined.

(** C1: the code departs from the reference definition when the
    capitalized token occurs in the name before its final occurrence.
    "ServiceLocatorService" is longer than "service" and ends with
    "Service" at position 14, so the reference definition strips it to
    "ServiceLocator"; [indexOf] finds the token at position 0 and the code
    returns the name whole. *)
Theorem removeTypeSuffix_keeps_repeated_token :
  startsWith (js "Service") (slice_from (js "ServiceLocatorService") 14) = true
  /\ indexOf (js "ServiceLocatorService") (js "Service") = 0%Z
  /\ removeTypeSuffix (js "ServiceLocatorService") (js "service")
     = Ok (js "ServiceLocatorService")
  /\ stripTypeSuffix_reference (js "ServiceLocatorService") (js "service")
     = Ok (js "ServiceLocator").
Proof. repeat split; reflexivity. Qed.

(** What [indexOf] returns: -1 when the text occurs nowhere, otherwise
    the least position where it occurs. *)
Lemma indexOf_from_spec (search s : jsstring) (i : Z) :
  (0 <= i)%Z ->
  (indexOf_from search s i = (-1)%Z
   /\ forall k, startsWith search (skipn k s) = false)
  \/ exists j : nat,
       indexOf_from search s i = (i + Z.of_nat j)%Z
       /\ startsWith search (skipn j s) = true
       /\ forall k, (k < j)%nat -> startsWith search (skipn k s) = false.
Proof.
  revert i; induction s as [|c s IH]; intros i Hi; simpl indexOf_from.
  - destruct (startsWith search []) eqn:E.
    + right. exists 0%nat. rewrite Z.add_0_r. repeat split; auto. intros; lia.
    + left. split; [reflexivity|]. intros k. rewrite skipn_nil. exact E.
  - destruct (startsWith search (c :: s)) eqn:E.
    + right. exists 0%nat. rewrite Z.add_0_r. repeat split; auto. intros; lia.
    + destruct (IH (i + 1)%Z ltac:(lia)) as [[H1 H2] | [j [H1 [H2 H3]]]].
      * left. split; [exact H1|]. intros [|k]; [exact E | apply H2].
      * right. exists (S j). split; [rewrite H1; lia|]. split; [exact H2|].
        intros [|k] Hk; [exact E | apply H3; lia].
Qed.

(** Where the capitalized token does not occur before position
    [name.length - type.length], the code and the reference definition
    agree. *)
Lemma removeTypeSuffix_reference_agree (name type : jsstring) :
  (forall capitalized, firstToUpper type = Ok capitalized ->
     ~ (0 <= indexOf name capitalized < len name - len type)%Z) ->
  removeTypeSuffix name type = stripTypeSuffix_reference name type.
Proof.
  intros Hfirst. unfold removeTypeSuffix, stripTypeSuffix_reference.
  destruct (Z.leb_spec (len name - len type) 0) as [H|H];
    destruct (Z.leb_spec (len name) (len type)) as [H'|H']; try lia; auto.
  destruct type as [|c t]; [reflexivity|].
  specialize (Hfirst _ (firstToUpper_cons c t)).
  rewrite firstToUpper_cons. cbn [bind].
  set (cap := char_toUpperCase c :: t) in *.
  rewrite slice_from_skipn by lia.
  unfold indexOf in *.
  destruct (indexOf_from_spec cap name 0 ltac:(lia)) as [[H1 H2] | [j [H1 [H2 H3]]]].
  - rewrite H1. destruct (Z.eqb_spec (-1) (len name - len (c :: t))); [lia|].
    rewrite H2. reflexivity.
  - rewrite H1 in *. rewrite Z.add_0_l in *.
    destruct (Z.eqb_spec (Z.of_nat j) (len name - len (c :: t))) as [E|E].
    + rewrite <- E, Nat2Z.id, H2. reflexivity.
    + rewrite H3; [reflexivity | lia].
Qed.

(** ** Letters *)

Lemma upper_not_lower (c : ascii) : is_upper c = true -> is_lower c = false.
Proof.
  destruct c as [[] [] [] [] [] [] [] []]; intros H;
    try discriminate H; reflexivity.
Qed.

Lemma toLowerCase_not_upper (c : ascii) : is_upper (char_toLowerCase c) = false.
Proof. destruct c as [[] [] [] [] [] [] [] []]; reflexivity. Qed.

Lemma char_toLowerCase_id (c : ascii) :
  is_upper c = false -> char_toLowerCase c = c.
Proof. unfold char_toLowerCase. intros ->. reflexivity. Qed.

Lemma toLowerCase_lower_cased (s : jsstring) : lower_cased (toLowerCase s) = true.
Proof.
  induction s as [|c s IH]; [reflexivity|]. simpl.
  rewrite toLowerCase_not_upper. exact IH.
Qed.

Lemma toLowerCase_id (s : jsstring) : lower_cased s = true -> toLowerCase s = s.
Proof.
  induction s as [|c s IH]; [reflexivity|]. simpl.
  rewrite andb_true_iff, negb_true_iff. intros [Hc Hs].
  rewrite char_toLowerCase_id, IH by assumption. reflexivity.
Qed.

(** ** transformComponentName *)

(** Without an upper-case letter there is no match, and [replace] returns
    its subject whatever the replacement is. *)
Lemma replace_lower_upper_lower_cased (s replacement : jsstring) :
  lower_cased s = true -> replace_lower_upper s replacement = Ok s.
Proof.
  induction s as [|a s IH]; [reflexivity|].
  intros H. simpl in H. apply andb_true_iff in H. destruct H as [Ha Hs].
  destruct s as [|b s]; [reflexivity|].
  assert (Hb : is_upper b = false).
  { simpl in Hs. apply andb_true_iff in Hs. destruct Hs as [Hb _].
    now apply negb_true_iff in Hb. }
  change (replace_lower_upper (a :: b :: s) replacement)
    with (if is_lower a && is_upper b
          then sub <- getSubstitution replacement [a] [b] ;;
               r <- replace_lower_upper s replacement ;; Ok (sub ++ r)
          else r <- replace_lower_upper (b :: s) replacement ;; Ok (a :: r)).
  rewrite Hb, andb_false_r, IH by assumption. reflexivity.
Qed.

(** With a replacement that expands to the first letter, a text and the
    second letter, [replace] puts the text at every boundary. *)
Lemma replace_lower_upper_insert (replacement text : jsstring) :
  (forall a b, getSubstitution replacement [a] [b] = Ok (a :: text ++ [b])) ->
  forall s, replace_lower_upper s replacement = Ok (insert_at_boundaries text s).
Proof.
  intros Hsub.
  assert (H : forall n s, (List.length s <= n)%nat ->
                replace_lower_upper s replacement
                = Ok (insert_at_boundaries text s)).
  { induction n as [|n IH]; intros s Hn.
    - destruct s; [reflexivity | simpl in Hn; lia].
    - destruct s as [|a [|b s]]; [reflexivity | reflexivity |].
      simpl in Hn.
      change (replace_lower_upper (a :: b :: s) replacement)
        with (if is_lower a && is_upper b
              then sub <- getSubstitution replacement [a] [b] ;;
                   r <- replace_lower_upper s replacement ;; Ok (sub ++ r)
              else r <- replace_lower_upper (b :: s) replacement ;; Ok (a :: r)).
      change (insert_at_boundaries text (a :: b :: s))
        with (if is_lower a && is_upper b
              then a :: text ++ insert_at_boundaries text (b :: s)
              else a :: insert_at_boundaries text (b :: s)).
      destruct (is_lower a && is_upper b) eqn:E.
      + apply andb_true_iff in E. destruct E as [_ Hb].
        rewrite Hsub, (IH s) by lia. cbn [bind].
        assert (Hins : insert_at_boundaries text (b :: s)
                       = b :: insert_at_boundaries text s).
        { destruct s as [|c s]; [reflexivity|].
          change (insert_at_boundaries text (b :: c :: s))
            with (if is_lower b && is_upper c
                  then b :: text ++ insert_at_boundaries text (c :: s)
                  else b :: insert_at_boundaries text (c :: s)).
          rewrite (upper_not_lower b Hb). reflexivity. }
        rewrite Hins. simpl. rewrite <- app_assoc. reflexivity.
      + rewrite (IH (b :: s)) by (simpl; lia). reflexivity. }
  intros s. apply (H (List.length s)). lia.
Qed.

Lemma getSubstitution_separator_texts (text : jsstring) :
  In text separator_texts ->
  forall a b, getSubstitution (js "$1" ++ text ++ js "$2") [a] [b]
              = Ok (a :: text ++ [b]).
Proof.
  intros Hin a b. simpl in Hin.
  repeat (destruct Hin as [<- | Hin]; [reflexivity|]). contradiction.
Qed.

Lemma get_separators_texts (key : jsstring) :
  truthy (get separators key) = true ->
  In (to_string (get separators key)) separator_texts.
Proof.
  unfold get, separators, own_property.
  destruct (str_eqb (js "dot") key); [intros _; simpl; auto|].
  destruct (str_eqb (js "dash") key); [intros _; simpl; auto|].
  destruct (str_eqb (js "underscore") key); [intros _; simpl; auto 6|].
  unfold object_prototype_get.
  destruct (str_eqb key (js "__proto__")); [intros _; simpl; auto 6|].
  destruct (str_eqb key (js "constructor")); [intros _; simpl; auto 6|].
  destruct (existsb (str_eqb key) builtin_methods) eqn:E; [|discriminate].
  intros _. apply existsb_exists in E. destruct E as [m [Hm E]].
  apply str_eqb_eq in E. subst m.
  unfold separator_texts. apply in_or_app. right.
  apply (in_map (fun name => to_string (VBuiltin name))). exact Hm.
Qed.

(** What the code computes, for every style: nothing when the read of
    [separators] is falsy, and otherwise the string form of what was read,
    put at every boundary, the whole lower-cased. *)
Lemma transformComponentName_eq (name : jsstring) (opts : options) :
  transformComponentName name opts
  = let nameSeparator := get separators (property_key (nameStyle opts)) in
    Ok (if truthy nameSeparator
        then toLowerCase (insert_at_boundaries (to_string nameSeparator) name)
        else name).
Proof.
  unfold transformComponentName. cbv zeta.
  destruct (truthy _) eqn:E; [|reflexivity].
  rewrite (replace_lower_upper_insert _ (to_string (get separators (property_key (nameStyle opts))))).
  - reflexivity.
  - apply getSubstitution_separator_texts, get_separators_texts, E.
Qed.

Lemma separator_char_get (style : option jsstring) (sep : ascii) :
  separator_char style = Some sep ->
  get separators (property_key style) = VString [sep].
Proof.
  destruct style as [s|]; [|discriminate]. unfold separator_char, property_key.
  destruct (str_eqb s (js "dash")) eqn:E1;
    [apply str_eqb_eq in E1; subst; intros [= <-]; reflexivity|].
  destruct (str_eqb s (js "dot")) eqn:E2;
    [apply str_eqb_eq in E2; subst; intros [= <-]; reflexivity|].
  destruct (str_eqb s (js "underscore")) eqn:E3;
    [apply str_eqb_eq in E3; subst; intros [= <-]; reflexivity|].
  intros H; discriminate H.
Qed.

(** Where the style maps to a separator character, and where the read of
    the table yields [undefined], the code computes the reference
    definition. *)
Lemma transformComponentName_reference (name : jsstring) (opts : options) :
  separator_char (nameStyle opts) <> None
  \/ get separators (property_key (nameStyle opts)) = VUndefined ->
  transformComponentName name opts
  = Ok (convertCase_reference name (nameStyle opts)).
Proof.
  intros H. rewrite transformComponentName_eq. cbv zeta.
  unfold convertCase_reference.
  destruct (separator_char (nameStyle opts)) as [sep|] eqn:E.
  - rewrite (separator_char_get _ _ E). reflexivity.
  - destruct H as [H|H]; [congruence|]. rewrite H. reflexivity.
Qed.

(** C6: the code departs from the reference definition for a style that is
    not in the separator table but names a member of [Object.prototype]:
    the read [separators["toString"]] yields the inherited function, which
    is truthy, and its text is put at the boundary. *)
Theorem transformComponentName_inherited_style :
  own_property separators (js "toString") = None
  /\ separator_char (Some (js "toString")) = None
  /\ convertCase_reference (js "myTab") (Some (js "toString")) = js "myTab"
  /\ transformComponentName (js "myTab")
       (mkOptions (Some (js "toString")) None false None)
     = Ok (js "myfunction tostring() { [native code] }tab").
Proof. repeat split; reflexivity. Qed.

(** C7: a name without upper-case letters is returned unchanged by
    [transformComponentName], for every style; and for every name and
    every style the conversion returns a string on which a second
    conversion with the same style changes nothing. *)
Theorem transformComponentName_idempotent (name : jsstring) (opts : options) :
  (lower_cased name = true -> transformComponentName name opts = Ok name)
  /\ exists once,
       transformComponentName name opts = Ok once
       /\ transformComponentName once opts = Ok once.
Proof.
  assert (Hfix : forall s, lower_cased s = true ->
                   transformComponentName s opts = Ok s).
  { intros s Hs. unfold transformComponentName. cbv zeta.
    destruct (truthy _); [|reflexivity].
    rewrite replace_lower_upper_lower_cased by assumption. cbn [bind].
    rewrite toLowerCase_id by assumption. reflexivity. }
  split; [apply Hfix|].
  rewrite transformComponentName_eq. cbv zeta.
  destruct (truthy (get separators (property_key (nameStyle opts)))) eqn:E.
  - eexists. split; [reflexivity|]. apply Hfix, toLowerCase_lower_cased.
  - exists name. split; [reflexivity|].
    unfold transformComponentName. cbv zeta. rewrite E. reflexivity.
Qed.

Lemma transformComponentName_idempotent_witness :
  lower_cased (js "app-utils") = true
  /\ transformComponentName (js "app-utils")
       (mkOptions (Some (js "dash")) None false None)
     = Ok (js "app-utils").
Proof.
  split; [reflexivity|].
  apply (proj1 (transformComponentName_idempotent (js "app-utils")
                  (mkOptions (Some (js "dash")) None false None))).
  reflexivity.
Defined.

(** ** removePrefix *)

Lemma step_literal (st : pstate) (c : ascii) (rest : jsstring) :
  is_syntax_char c = false ->
  mode st = Idle \/ (exists a, mode st = Pending a) ->
  step st c rest
  = Ok (mkPstate (alts (flush st)) (cur (flush st)) (Pending (AChar c))).
Proof.
  intros Hc Hm. unfold step, top_step, flush.
  destruct Hm as [Hm | [a Hm]]; rewrite Hm;
    destruct c as [[] [] [] [] [] [] [] []];
    try discriminate Hc; reflexivity.
Qed.

Lemma parse_literal (p : jsstring) :
  literal_text p = true ->
  forall (acc : list term) (a : atom),
    parse_from (mkPstate [] acc (Pending a)) (p ++ js "[A-Z]")
    = Ok [rev acc ++ TAtom a Once :: map literal_term p ++ [upper_class]].
Proof.
  induction p as [|c p IH]; intros Hp acc a.
  - simpl. unfold finish, flush. simpl. rewrite <- !app_assoc. reflexivity.
  - simpl in Hp. apply andb_true_iff in Hp. destruct Hp as [Hc Hp].
    apply negb_true_iff in Hc.
    change ((c :: p) ++ js "[A-Z]") with (c :: (p ++ js "[A-Z]")).
    cbn [parse_from]. rewrite step_literal; [|exact Hc|right; eexists; reflexivity].
    cbn [bind flush mode alts cur]. rewrite IH by assumption.
    simpl. rewrite <- app_assoc. reflexivity.
Qed.

(** A prefix without syntax characters is read as itself. *)
Lemma RegExp_literal (p : jsstring) :
  literal_text p = true ->
  RegExp (js "^" ++ p ++ js "[A-Z]")
  = Ok [TStart :: map literal_term p ++ [upper_class]].
Proof.
  intros Hp. destruct p as [|c p]; [reflexivity|].
  simpl in Hp. apply andb_true_iff in Hp. destruct Hp as [Hc Hp].
  apply negb_true_iff in Hc.
  unfold RegExp. change (js "^" ++ (c :: p) ++ js "[A-Z]")
    with ("^"%char :: c :: (p ++ js "[A-Z]")).
  cbn [parse_from]. change (step (mkPstate [] [] Idle) "^" (c :: p ++ js "[A-Z]"))
    with (Ok (mkPstate [] [TStart] Idle)).
  cbn [bind]. rewrite step_literal; [|exact Hc|left; reflexivity].
  cbn [bind flush mode alts cur]. rewrite parse_literal by assumption.
  reflexivity.
Qed.

Lemma match_here_literal (p s : jsstring) (at_start : bool) :
  match_here (map literal_term p ++ [upper_class]) at_start s
  = begins_with_and_upper p s.
Proof.
  unfold begins_with_and_upper.
  revert s at_start; induction p as [|c p IH]; intros s at_start.
  - destruct s as [|d s]; [reflexivity|]. simpl.
    unfold is_upper. rewrite andb_true_r, orb_false_r. reflexivity.
  - destruct s as [|d s]; [reflexivity|]. simpl.
    rewrite IH, andb_assoc. reflexivity.
Qed.

Lemma search_anchored_later (ts : alternative) (s : jsstring) :
  search [TStart :: ts] false s = false.
Proof. induction s as [|c s IH]; [reflexivity|]. simpl. exact IH. Qed.

Lemma test_literal (p name : jsstring) :
  test [TStart :: map literal_term p ++ [upper_class]] name
  = begins_with_and_upper p name.
Proof.
  unfold test. destruct name as [|c s].
  - simpl. rewrite match_here_literal. rewrite !orb_false_r. reflexivity.
  - cbn [search existsb]. rewrite search_anchored_later.
    cbn [match_here andb]. rewrite match_here_literal, !orb_false_r. reflexivity.
Qed.

(** For a prefix without syntax characters the code is the literal
    transformation of the specification. *)
Lemma removePrefix_literal (name p : jsstring) (opts : options) :
  ignorePrefix opts = Some p ->
  literal_text p = true ->
  removePrefix name opts
  = if begins_with_and_upper p name
    then firstToLower (skipn (List.length p) name)
    else Ok name.
Proof.
  intros Hopt Hp. unfold removePrefix, RegExp_test. rewrite Hopt.
  cbn [to_string]. rewrite RegExp_literal by assumption. cbn [bind].
  rewrite test_literal. destruct (begins_with_and_upper p name); [|reflexivity].
  rewrite slice_from_skipn by apply len_nonneg.
  unfold len. rewrite Nat2Z.id. reflexivity.
Qed.

Lemma removePrefix_literal_strips (p rest : jsstring) (c : ascii) (opts : options) :
  ignorePrefix opts = Some p ->
  literal_text p = true ->
  is_upper c = true ->
  removePrefix (p ++ c :: rest) opts = Ok (char_toLowerCase c :: rest).
Proof.
  intros Hopt Hp Hc. rewrite (removePrefix_literal _ _ _ Hopt Hp).
  unfold begins_with_and_upper.
  assert (Hs : startsWith p (p ++ c :: rest) = true)
    by (apply startsWith_iff; eexists; reflexivity).
  rewrite Hs, skipn_app, Nat.sub_diag, skipn_all. simpl.
  rewrite Hc. apply firstToLower_cons.
Qed.

Lemma removePrefix_literal_keeps (name p : jsstring) (opts : options) :
  ignorePrefix opts = Some p ->
  literal_text p = true ->
  (forall c rest, name = p ++ c :: rest -> is_upper c = false) ->
  removePrefix name opts = Ok name.
Proof.
  intros Hopt Hp Hno. rewrite (removePrefix_literal _ _ _ Hopt Hp).
  unfold begins_with_and_upper.
  destruct (startsWith p name) eqn:Hs; [|reflexivity].
  apply startsWith_iff in Hs. destruct Hs as [r ->].
  rewrite skipn_app, Nat.sub_diag, skipn_all. simpl.
  destruct r as [|c r]; [reflexivity|]. rewrite (Hno c r eq_refl). reflexivity.
Qed.

(** C3: the prefix is made part of a regular expression and is read as a
    pattern. "$AppUtils" literally begins with "$" followed by an
    upper-case letter, but in the pattern [^$[A-Z]] the dollar is the
    end-of-input assertion, nothing matches and the name is kept.
    "stAppUtils" does not begin with "s.", but the dot of [^s.[A-Z]]
    matches the "t" and two characters are cut off. *)
Theorem removePrefix_reads_prefix_as_pattern :
  begins_with_and_upper (js "$") (js "$AppUtils") = true
  /\ removePrefix (js "$AppUtils") (mkOptions None None false (Some (js "$")))
     = Ok (js "$AppUtils")
  /\ begins_with_and_upper (js "s.") (js "stAppUtils") = false
  /\ removePrefix (js "stAppUtils") (mkOptions None None false (Some (js "s.")))
     = Ok (js "appUtils").
Proof. repeat split; reflexivity. Qed.

(** ** createExpectedName *)

Lemma createExpectedName_eq (name type : jsstring) (opts : options) :
  createExpectedName name type opts
  = n <- normalizedName name type opts ;;
    let typeSeparator := get separators (property_key (typeSeparator opts)) in
    Ok ((if negb (is_undefined typeSeparator)
         then n ++ to_string typeSeparator ++ type
         else n) ++ fileEnding).
Proof.
  unfold createExpectedName, normalizedName. cbv zeta.
  destruct (if ignoreTypeSuffix opts then _ else _) as [n1| |];
    cbn [bind]; try reflexivity.
  destruct (match ignorePrefix opts with Some _ => _ | None => _ end)
    as [n2| |]; cbn [bind]; reflexivity.
Qed.

(** X14: where the type separator maps to a character the expected name is the
    normalized name, the character, the type and the ending; where the
    read of the table yields [undefined] (the option is absent, or is a key
    that the table neither has nor inherits) it is the normalized name and
    the ending. *)
Lemma createExpectedName_separator (name type : jsstring) (opts : options) :
  (forall sep, separator_char (typeSeparator opts) = Some sep ->
     createExpectedName name type opts
     = n <- normalizedName name type opts ;;
       Ok (n ++ [sep] ++ type ++ fileEnding))
  /\ (get separators (property_key (typeSeparator opts)) = VUndefined ->
      createExpectedName name type opts
      = n <- normalizedName name type opts ;; Ok (n ++ fileEnding)).
Proof.
  split.
  - intros sep H. rewrite createExpectedName_eq. cbv zeta.
    rewrite (separator_char_get _ _ H). cbn [is_undefined negb to_string].
    destruct (normalizedName name type opts); cbn [bind]; try reflexivity.
    rewrite <- !app_assoc. reflexivity.
  - intros H. rewrite createExpectedName_eq. cbv zeta. rewrite H. reflexivity.
Qed.

Example createExpectedName_myFilter :
  createExpectedName (js "myFilter") (js "filter") no_options = Ok (js "myFilter.js").
Proof. reflexivity. Qed.

Example createExpectedName_myFilter_dot :
  createExpectedName (js "myFilter") (js "filter")
    (mkOptions None (Some (js "dot")) false None)
  = Ok (js "myFilter.filter.js").
Proof. reflexivity. Qed.

(** C4: for a type separator that is not in the separator table but names
    a member of [Object.prototype], the read [separators["toString"]]
    yields the inherited function, which is not [undefined]: its text and
    the type are appended, where the claim has the name and the ending
    only. *)
Theorem createExpectedName_inherited_separator :
  own_property separators (js "toString") = None
  /\ separator_char (Some (js "toString")) = None
  /\ normalizedName (js "myFilter") (js "filter")
       (mkOptions None (Some (js "toString")) false None)
     = Ok (js "myFilter")
  /\ createExpectedName (js "myFilter") (js "filter")
       (mkOptions None (Some (js "toString")) false None)
     = Ok (js "myFilterfunction toString() { [native code] }filter.js").
Proof. repeat split; reflexivity. Qed.

(** With a type token that is not empty, and a prefix (if any) without
    syntax characters, [createExpectedName] returns a string. *)
Lemma createExpectedName_total (name type : jsstring) (opts : options) :
  type <> [] ->
  (forall p, ignorePrefix opts = Some p -> literal_text p = true) ->
  exists expectedName, createExpectedName name type opts = Ok expectedName.
Proof.
  intros Htype Hp. rewrite createExpectedName_eq. unfold normalizedName.
  assert (H1 : exists n1, (if ignoreTypeSuffix opts
                           then removeTypeSuffix name type else Ok name) = Ok n1).
  { destruct (ignoreTypeSuffix opts); [|eauto].
    apply removeTypeSuffix_returns, Htype. }
  destruct H1 as [n1 ->]. cbn [bind].
  assert (H2 : exists n2,
             match ignorePrefix opts with
             | Some p => if negb (str_eqb p []) && (0 <? len p)%Z
                         then removePrefix n1 opts else Ok n1
             | None => Ok n1
             end = Ok n2).
  { destruct (ignorePrefix opts) as [p|] eqn:E; [|eauto].
    destruct (negb (str_eqb p []) && (0 <? len p)%Z); [|eauto].
    rewrite (removePrefix_literal n1 p opts E (Hp p eq_refl)).
    unfold begins_with_and_upper.
    destruct (startsWith p n1); [|simpl; eauto]. cbn [andb].
    destruct (skipn (List.length p) n1) as [|c r]; [eauto|].
    destruct (is_upper c); [|eauto]. rewrite firstToLower_cons. eauto. }
  destruct H2 as [n2 ->]. cbn [bind].
  rewrite transformComponentName_eq. cbv zeta.
  destruct (present (nameStyle opts)); cbn [bind]; eauto.
Qed.

(** C2: [createExpectedName] throws for some prefixes. With the prefix "("
    the pattern [^([A-Z]] has a group that is never closed, and [RegExp]
    throws a SyntaxError. With the prefix "x*" the pattern [^x*[A-Z]]
    matches "A", two characters are sliced off the one-letter name, and
    [firstToLower] reads the first letter of the empty string. *)
Theorem createExpectedName_throws :
  createExpectedName (js "myFilter") (js "filter")
    (mkOptions None None false (Some (js "(")))
  = Throw SyntaxError
  /\ createExpectedName (js "A") (js "service")
       (mkOptions None None false (Some (js "x*")))
     = Throw TypeError.
Proof. split; reflexivity. Qed.

(** ** The rule *)

Section RuleProperties.

Variable isAngularComponent : node -> bool.
Variable isMemberExpression : callee -> bool.

Lemma service_kinds_type (kind : jsstring) :
  In kind service_kinds ->
  get componentTypeMappings kind = VString (js "service").
Proof.
  intros H. simpl in H.
  repeat (destruct H as [<- | H]; [reflexivity|]). contradiction.
Qed.

(** C5: a declaration of kind service, factory, provider or value made on
    the object [$provide] is skipped: the visit returns before an expected
    name is computed and reports nothing, whatever the file name and the
    options are, also options for which [createExpectedName] throws. *)
Theorem CallExpression_provide_skipped
    (opts : options) (filename kind name : jsstring) :
  In kind service_kinds ->
  get componentTypeMappings kind = VString (js "service")
  /\ CallExpression isAngularComponent isMemberExpression opts filename
       (mkNode (mkCallee kind (Some (js "$provide"))) name)
     = Ok Skipped.
Proof.
  intros H. pose proof (service_kinds_type kind H) as Htype.
  split; [exact Htype|].
  unfold CallExpression. cbn [node_callee property_name object_name].
  rewrite Htype.
  destruct (isAngularComponent _ && isMemberExpression _); reflexivity.
Qed.

(** What the visit of a recognized declaration that is not skipped
    computes. *)
Lemma CallExpression_compared
    (opts : options) (filename : jsstring) (n : node)
    (type expectedName : jsstring) :
  isAngularComponent n = true ->
  isMemberExpression (node_callee n) = true ->
  get componentTypeMappings (property_name (node_callee n)) = VString type ->
  ~ (type = js "service" /\ object_name (node_callee n) = Some (js "$provide")) ->
  createExpectedName (argument0_value n) type opts = Ok expectedName ->
  CallExpression isAngularComponent isMemberExpression opts filename n
  = Ok (Compared expectedName
          (if str_eqb expectedName filename then []
           else [message expectedName])).
Proof.
  intros Hac Hme Htype Hnot Hname.
  unfold CallExpression. rewrite Hac, Hme, Htype. cbn [andb].
  assert (Hex : str_eqb type (js "service")
                && match object_name (node_callee n) with
                   | Some o => str_eqb o (js "$provide")
                   | None => false
                   end = false).
  { destruct (str_eqb type (js "service")) eqn:E1; [|reflexivity].
    destruct (object_name (node_callee n)) as [o|]; [|reflexivity].
    destruct (str_eqb o (js "$provide")) eqn:E2; [|reflexivity].
    apply str_eqb_eq in E1, E2. subst. exfalso. apply Hnot. auto. }
  rewrite Hex, Hname. cbn [bind].
  destruct (str_eqb expectedName filename); reflexivity.
Qed.

End RuleProperties.

(** C9: for a declaration that the rule recognizes and does not skip, and
    for which [createExpectedName] returns [expectedName], the visit
    carries [expectedName]; it passes exactly when [expectedName] and the
    file name are the same string, character for character, and otherwise
    reports the message with [expectedName]. The filter "myFilter" in the
    file "filters.js", without options, does not pass and carries
    "myFilter.js". *)
Theorem CallExpression_verdict :
  (forall (isAngularComponent : node -> bool)
          (isMemberExpression : callee -> bool)
          (opts : options) (filename : jsstring) (n : node)
          (type expectedName : jsstring),
     isAngularComponent n = true ->
     isMemberExpression (node_callee n) = true ->
     get componentTypeMappings (property_name (node_callee n)) = VString type ->
     ~ (type = js "service"
        /\ object_name (node_callee n) = Some (js "$provide")) ->
     createExpectedName (argument0_value n) type opts = Ok expectedName ->
     exists v passed,
       CallExpression isAngularComponent isMemberExpression opts filename n
       = Ok v
       /\ expected v = Some expectedName
       /\ pass v = Some passed
       /\ (passed = true <-> expectedName = filename)
       /\ v = Compared expectedName
                (if passed then [] else [message expectedName]))
  /\ exists v,
       CallExpression always always no_options (js "filters.js")
         (mkNode (mkCallee (js "filter") (Some (js "app"))) (js "myFilter"))
       = Ok v
       /\ pass v = Some false
       /\ expected v = Some (js "myFilter.js").
Proof.
  split.
  - intros isAC isME opts filename n type expectedName Hac Hme Htype Hnot Hname.
    rewrite (CallExpression_compared isAC isME opts filename n type
               expectedName Hac Hme Htype Hnot Hname).
    destruct (str_eqb expectedName filename) eqn:E.
    + exists (Compared expectedName []), true. repeat split; auto.
      intros _. now apply str_eqb_eq.
    + exists (Compared expectedName [message expectedName]), false.
      repeat split; auto; try discriminate.
      intros H. apply str_eqb_neq in E. contradiction.
  - eexists. repeat split; reflexivity.
Qed.

Lemma CallExpression_verdict_witness :
  exists v passed,
    CallExpression always always
      (mkOptions None (Some (js "dot")) false None) (js "myFilter.filter.js")
      (mkNode (mkCallee (js "filter") (Some (js "app"))) (js "myFilter"))
    = Ok v
    /\ expected v = Some (js "myFilter.filter.js")
    /\ pass v = Some passed
    /\ (passed = true <-> js "myFilter.filter.js" = js "myFilter.filter.js")
    /\ v = Compared (js "myFilter.filter.js")
             (if passed then [] else [message (js "myFilter.filter.js")]).
Proof.
  apply (proj1 CallExpression_verdict always always
           (mkOptions None (Some (js "dot")) false None)
           (js "myFilter.filter.js")
           (mkNode (mkCallee (js "filter") (Some (js "app"))) (js "myFilter"))
           (js "filter") (js "myFilter.filter.js")).
  - reflexivity.
  - reflexivity.
  - reflexivity.
  - intros [H _]. discriminate H.
  - reflexivity.
Defined.

(** C8: the table of kinds; for each of the kinds service, factory,
    provider and value the visit of a recognized declaration is the one
    that computes the expected name with the type "service", so it does not
    depend on which of the four kinds the declaration has; and "someUtil"
    with the type separator "dash" has the expected name
    "someUtil-service.js" for each of the four. *)
Theorem componentTypeMappings_service_kinds :
  map (get componentTypeMappings)
      (map js [ "module"; "controller"; "directive"; "filter"; "service";
                "factory"; "provider"; "value"; "constant" ]%string)
  = map (fun token => VString (js token))
        [ "module"; "controller"; "directive"; "filter"; "service";
          "service"; "service"; "service"; "constant" ]%string
  /\ (forall (isAngularComponent : node -> bool)
             (isMemberExpression : callee -> bool)
             (opts : options) (filename kind name : jsstring)
             (object : option jsstring),
        In kind service_kinds ->
        isAngularComponent (mkNode (mkCallee kind object) name) = true ->
        isMemberExpression (mkCallee kind object) = true ->
        CallExpression isAngularComponent isMemberExpression opts filename
          (mkNode (mkCallee kind object) name)
        = if match object with
             | Some o => str_eqb o (js "$provide")
             | None => false
             end
          then Ok Skipped
          else
            expectedName <- createExpectedName name (js "service") opts ;;
            Ok (Compared expectedName
                  (if str_eqb expectedName filename then []
                   else [message expectedName])))
  /\ Forall (fun kind =>
               CallExpression always always
                 (mkOptions None (Some (js "dash")) false None)
                 (js "someUtil-service.js")
                 (mkNode (mkCallee kind (Some (js "app"))) (js "someUtil"))
               = Ok (Compared (js "someUtil-service.js") []))
            service_kinds.
Proof.
  split; [reflexivity|]. split.
  - intros isAC isME opts filename kind name object Hkind Hac Hme.
    unfold CallExpression.
    cbn [node_callee property_name object_name argument0_value].
    rewrite Hac, Hme, (service_kinds_type kind Hkind). cbn [andb].
    change (str_eqb (js "service") (js "service")) with true. cbn [andb].
    destruct (match object with Some o => _ | None => _ end); [reflexivity|].
    destruct (createExpectedName name (js "service") opts); cbn [bind];
      try reflexivity.
    destruct (str_eqb a filename); reflexivity.
  - repeat constructor.
Qed.

Lemma componentTypeMappings_service_kinds_witness :
  CallExpression always always
    (mkOptions None (Some (js "dash")) false None) (js "someUtil-service.js")
    (mkNode (mkCallee (js "provider") None) (js "someUtil"))
  = (expectedName <- createExpectedName (js "someUtil") (js "service")
                       (mkOptions None (Some (js "dash")) false None) ;;
     Ok (Compared expectedName
           (if str_eqb expectedName (js "someUtil-service.js") then []
            else [message expectedName]))).
Proof.
  apply (proj1 (proj2 componentTypeMappings_service_kinds) always always
           (mkOptions None (Some (js "dash")) false None)
           (js "someUtil-service.js") (js "provider") (js "someUtil") None).
  - simpl; auto.
  - reflexivity.
  - reflexivity.
Defined.

Lemma CallExpression_provide_skipped_witness :
  In (js "value") service_kinds
  /\ CallExpression always always
       (mkOptions None None false (Some (js "(")))
       (js "myApp.module.js")
       (mkNode (mkCallee (js "value") (Some (js "$provide"))) (js "accountsService"))
     = Ok Skipped.
Proof.
  split; [simpl; auto|].
  apply (CallExpression_provide_skipped always always
           (mkOptions None None false (Some (js "(")))
           (js "myApp.module.js") (js "value") (js "accountsService")).
  simpl; auto.
Defined.

(** * Further properties of the code *)

(** ** firstToUpper and firstToLower *)







(** ** removeTypeSuffix, continued *)

Lemma startsWith_same_length (p x : jsstring) :
  startsWith p x = true -> List.length x = List.length p -> x = p.
Proof.
  intros H Hlen. apply startsWith_iff in H. destruct H as [r ->].
  rewrite length_app in Hlen. destruct r; [apply app_nil_r | simpl in Hlen; lia].
Qed.

Lemma startsWith_app (p x y : jsstring) :
  startsWith p x = true -> startsWith p (x ++ y) = true.
Proof.
  intros H. apply startsWith_iff in H. destruct H as [r ->].
  apply startsWith_iff. exists (r ++ y). symmetry. apply app_assoc.
Qed.

Lemma startsWith_refl (p : jsstring) : startsWith p p = true.
Proof. apply startsWith_iff. exists []. symmetry. apply app_nil_r. Qed.

(** [indexOf] returns the least position of an occurrence. *)
Lemma indexOf_least (s search : jsstring) (j : nat) :
  startsWith search (skipn j s) = true ->
  (forall k, (k < j)%nat -> startsWith search (skipn k s) = false) ->
  indexOf s search = Z.of_nat j.
Proof.
  intros Hj Hbefore. unfold indexOf.
  destruct (indexOf_from_spec search s 0 ltac:(lia))
    as [[_ Hnone] | [i [Hi [Htrue Hleast]]]].
  - rewrite Hnone in Hj. discriminate.
  - rewrite Hi, Z.add_0_l. f_equal.
    destruct (Nat.lt_trichotomy i j) as [Hlt | [Heq | Hgt]]; [|exact Heq|].
    + rewrite (Hbefore i Hlt) in Htrue. discriminate.
    + rewrite (Hleast j Hgt) in Hj. discriminate.
Qed.

(** The two outcomes of [removeTypeSuffix] for a token that is not empty:
    the name is returned whole, or the name is a kept part that is not
    empty followed by the capitalized token, which occurs nowhere before. *)
Lemma removeTypeSuffix_cases (name : jsstring) (c : ascii) (t : jsstring) :
  removeTypeSuffix name (c :: t) = Ok name
  \/ exists kept,
       removeTypeSuffix name (c :: t) = Ok kept
       /\ kept <> []
       /\ name = kept ++ char_toUpperCase c :: t
       /\ forall k, (k < List.length kept)%nat ->
            startsWith (char_toUpperCase c :: t) (skipn k name) = false.
Proof.
  destruct (Z.le_gt_cases (len name) (len (c :: t))) as [Hle|Hgt].
  { left. apply removeTypeSuffix_short, Hle. }
  rewrite removeTypeSuffix_long by lia.
  set (cap := char_toUpperCase c :: t).
  destruct (Z.eqb_spec (indexOf name cap) (len name - len (c :: t))) as [E|E];
    [|left; reflexivity].
  right. unfold indexOf in E.
  set (d := (List.length name - List.length (c :: t))%nat).
  assert (Hd : (len name - len (c :: t))%Z = Z.of_nat d)
    by (unfold len in *; lia).
  destruct (indexOf_from_spec cap name 0 ltac:(lia))
    as [[Hnone _] | [j [Hj [Htrue Hleast]]]].
  { rewrite Hnone in E. unfold len in *. lia. }
  assert (j = d) by lia. subst j.
  exists (firstn d name).
  assert (Hlen : List.length (firstn d name) = d)
    by (rewrite length_firstn; unfold len in Hgt; lia).
  split; [reflexivity|]. split.
  - intros Hnil. rewrite Hnil in Hlen. simpl in Hlen.
    unfold len in *. simpl List.length in *. lia.
  - split.
    + rewrite <- (startsWith_same_length cap (skipn d name) Htrue).
      * symmetry. apply firstn_skipn.
      * rewrite length_skipn. unfold cap. simpl. unfold d. simpl.
        unfold len in Hgt. simpl List.length in Hgt. lia.
    + rewrite Hlen. exact Hleast.
Qed.

(** X3: [removeTypeSuffix] cuts off nothing but the capitalized token: when
    it returns a string other than the name, the name is that string
    followed by the token with its first letter in upper case, and the
    string is not empty. *)
Theorem removeTypeSuffix_cuts_capitalized_token
    (name type kept : jsstring) :
  removeTypeSuffix name type = Ok kept ->
  kept <> name ->
  exists capitalized,
    firstToUpper type = Ok capitalized
    /\ name = kept ++ capitalized
    /\ kept <> [].
Proof.
  intros Hrun Hneq. destruct type as [|c t].
  - unfold removeTypeSuffix in Hrun.
    destruct (_ <=? _)%Z; [congruence | discriminate].
  - destruct (removeTypeSuffix_cases name c t) as [H | [k [H [Hk [Hname _]]]]].
    + congruence.
    + assert (k = kept) by congruence. subst k.
      exists (char_toUpperCase c :: t). rewrite firstToUpper_cons. auto.
Qed.

Lemma removeTypeSuffix_cuts_capitalized_token_witness :
  exists capitalized,
    firstToUpper (js "service") = Ok capitalized
    /\ js "avengersService" = js "avengers" ++ capitalized
    /\ js "avengers" <> [].
Proof.
  apply (removeTypeSuffix_cuts_capitalized_token
           (js "avengersService") (js "service") (js "avengers")).
  - reflexivity.
  - discriminate.
Defined.

(** X4: [removeTypeSuffix] is idempotent: what it returns is returned
    unchanged by a second call with the same type, so a name such as
    "fooServiceService" never loses two tokens. *)
Theorem removeTypeSuffix_idempotent (name type kept : jsstring) :
  removeTypeSuffix name type = Ok kept ->
  removeTypeSuffix kept type = Ok kept.
Proof.
  intros Hrun. destruct type as [|c t].
  - unfold removeTypeSuffix in Hrun.
    destruct (_ <=? _)%Z eqn:E; [|discriminate].
    assert (kept = name) by congruence. subst.
    unfold removeTypeSuffix. rewrite E. reflexivity.
  - destruct (removeTypeSuffix_cases name c t)
      as [H | [k [H [Hk [Hname Hleast]]]]].
    + assert (kept = name) by congruence. subst. exact H.
    + assert (k = kept) by congruence. subst k. clear H.
      set (cap := char_toUpperCase c :: t) in *.
      destruct (Z.le_gt_cases (len kept) (len (c :: t))) as [Hle|Hgt].
      { apply removeTypeSuffix_short, Hle. }
      rewrite removeTypeSuffix_long by lia. fold cap.
      destruct (Z.eqb_spec (indexOf kept cap) (len kept - len (c :: t)))
        as [E|E]; [|reflexivity].
      exfalso. unfold indexOf in E.
      destruct (indexOf_from_spec cap kept 0 ltac:(lia))
        as [[Hnone _] | [j [Hj [Htrue _]]]].
      { rewrite Hnone in E. lia. }
      assert (Hjlt : (j < List.length kept)%nat).
      { destruct (Nat.lt_ge_cases j (List.length kept)) as [Hlt|Hge]; [exact Hlt|].
        rewrite skipn_all2 in Htrue by exact Hge. discriminate. }
      specialize (Hleast j Hjlt). rewrite Hname, skipn_app in Hleast.
      rewrite (startsWith_app _ _ _ Htrue) in Hleast. discriminate.
Qed.

Lemma removeTypeSuffix_idempotent_witness :
  removeTypeSuffix (js "Avengers") (js "controller") = Ok (js "Avengers").
Proof.
  apply (removeTypeSuffix_idempotent (js "AvengersController") (js "controller")).
  reflexivity.
Defined.

Lemma removeTypeSuffix_appended (base : jsstring) (c : ascii) (t : jsstring) :
  base <> [] ->
  ~ In (char_toUpperCase c) base ->
  removeTypeSuffix (base ++ char_toUpperCase c :: t) (c :: t) = Ok base.
Proof.
  intros Hbase Hnotin. set (cap := char_toUpperCase c :: t).
  assert (Hlen : (len (c :: t) < len (base ++ cap))%Z).
  { unfold len. rewrite length_app. unfold cap. simpl.
    destruct base; [congruence | simpl; lia]. }
  rewrite removeTypeSuffix_long by exact Hlen. fold cap.
  assert (Hd : (List.length (base ++ cap) - List.length (c :: t))%nat
               = List.length base)
    by (rewrite length_app; unfold cap; simpl; lia).
  rewrite Hd.
  rewrite (indexOf_least (base ++ cap) cap (List.length base)).
  - replace (len (base ++ cap) - len (c :: t))%Z with (Z.of_nat (List.length base))
      by (unfold len, cap; rewrite length_app; simpl; lia).
    rewrite Z.eqb_refl, firstn_app, Nat.sub_diag, firstn_all. simpl.
    rewrite app_nil_r. reflexivity.
  - rewrite skipn_app, Nat.sub_diag, skipn_all. apply startsWith_refl.
  - intros k Hk. rewrite skipn_app.
    destruct (skipn k base) as [|x r] eqn:E.
    + apply (f_equal (@List.length ascii)) in E. rewrite length_skipn in E.
      simpl in E. lia.
    + assert (Hin : In x base).
      { rewrite <- (firstn_skipn k base). apply in_or_app. right.
        rewrite E. left; reflexivity. }
      unfold cap. cbn [app startsWith].
      destruct (Ascii.eqb_spec (char_toUpperCase c) x) as [Hx|]; [|reflexivity].
      subst x. contradiction.
Qed.

Lemma toUpper_lower_differs (c : ascii) :
  is_lower c = true -> Ascii.eqb (char_toUpperCase c) c = false.
Proof.
  destruct c as [[] [] [] [] [] [] [] []]; intros H;
    try discriminate H; reflexivity.
Qed.

(** X5: a name made of a part that is not empty and has no occurrence of
    the capital first letter of the token, followed by the capitalized
    token, is stripped to that part; the same part followed by the token
    in lower case is returned whole. *)
Theorem removeTypeSuffix_strips_capitalized_only
    (base : jsstring) (c : ascii) (t : jsstring) :
  base <> [] ->
  ~ In (char_toUpperCase c) base ->
  is_lower c = true ->
  removeTypeSuffix (base ++ char_toUpperCase c :: t) (c :: t) = Ok base
  /\ removeTypeSuffix (base ++ c :: t) (c :: t) = Ok (base ++ c :: t).
Proof.
  intros Hbase Hnotin Hlower.
  split; [apply removeTypeSuffix_appended; assumption|].
  destruct (removeTypeSuffix_cases (base ++ c :: t) c t)
    as [H | [k [_ [_ [Hname _]]]]]; [exact H|].
  exfalso.
  assert (Hlen : List.length k = List.length base).
  { apply (f_equal (@List.length ascii)) in Hname.
    rewrite !length_app in Hname. simpl in Hname. lia. }
  apply (f_equal (skipn (List.length base))) in Hname.
  rewrite skipn_app, Nat.sub_diag, skipn_all in Hname.
  rewrite <- Hlen, skipn_app, Nat.sub_diag, skipn_all in Hname.
  simpl in Hname. injection Hname as Hc.
  pose proof (toUpper_lower_differs c Hlower) as Hd.
  rewrite <- Hc, Ascii.eqb_refl in Hd. discriminate Hd.
Qed.

Lemma removeTypeSuffix_strips_capitalized_only_witness :
  removeTypeSuffix (js "avengers" ++ char_toUpperCase "s" :: js "ervice")
    ("s"%char :: js "ervice") = Ok (js "avengers")
  /\ removeTypeSuffix (js "avengers" ++ "s"%char :: js "ervice")
       ("s"%char :: js "ervice") = Ok (js "avengers" ++ "s"%char :: js "ervice").
Proof.
  apply (removeTypeSuffix_strips_capitalized_only (js "avengers") "s" (js "ervice")).
  - discriminate.
  - simpl. intros H. repeat (destruct H as [H|H]; [discriminate H|]). exact H.
  - reflexivity.
Defined.

(** ** removePrefix, continued *)

(** X6: with a prefix that has no syntax character of regular expressions,
    [removePrefix] is the literal transformation: a name that is the prefix,
    an upper-case letter and a rest becomes that letter in lower case and
    the rest; every other name is returned unchanged. *)
Theorem removePrefix_literal_prefix (name p : jsstring) (opts : options) :
  ignorePrefix opts = Some p ->
  literal_text p = true ->
  (forall c rest, name = p ++ c :: rest -> is_upper c = true ->
     removePrefix name opts = Ok (char_toLowerCase c :: rest))
  /\ ((forall c rest, name = p ++ c :: rest -> is_upper c = false) ->
      removePrefix name opts = Ok name).
Proof.
  intros Hopt Hp. split.
  - intros c rest -> Hc. apply removePrefix_literal_strips; assumption.
  - intros Hno. apply (removePrefix_literal_keeps name p); assumption.
Qed.

Lemma removePrefix_literal_prefix_witness :
  removePrefix (js "xpAssetService") (mkOptions None None false (Some (js "xp")))
  = Ok (char_toLowerCase "A" :: js "ssetService").
Proof.
  apply (proj1 (removePrefix_literal_prefix (js "xpAssetService") (js "xp")
                  (mkOptions None None false (Some (js "xp")))
                  eq_refl eq_refl) "A"%char (js "ssetService")).
  - reflexivity.
  - reflexivity.
Defined.

(** X7: whatever the pattern made from the prefix matches, what
    [removePrefix] cuts off is measured by the length of the prefix text:
    when it returns a string other than the name, that string is the name
    without its first [ignorePrefix.length] characters, its first letter
    put in lower case. *)
Theorem removePrefix_cuts_prefix_length
    (name p r : jsstring) (opts : options) :
  ignorePrefix opts = Some p ->
  removePrefix name opts = Ok r ->
  r <> name ->
  exists c rest,
    skipn (List.length p) name = c :: rest
    /\ r = char_toLowerCase c :: rest.
Proof.
  intros Hopt Hrun Hneq. unfold removePrefix in Hrun. rewrite Hopt in Hrun.
  destruct (RegExp_test _ name) as [[|]| |]; cbn [bind] in Hrun;
    try discriminate; [|congruence].
  rewrite slice_from_skipn in Hrun by apply len_nonneg.
  unfold len in Hrun. rewrite Nat2Z.id in Hrun.
  destruct (skipn (List.length p) name) as [|c rest]; [discriminate|].
  rewrite firstToLower_cons in Hrun. injection Hrun as <-. eauto.
Qed.

Lemma removePrefix_cuts_prefix_length_witness :
  exists c rest,
    skipn (List.length (js "s.")) (js "stAppUtils") = c :: rest
    /\ js "appUtils" = char_toLowerCase c :: rest.
Proof.
  apply (removePrefix_cuts_prefix_length (js "stAppUtils") (js "s.")
           (js "appUtils") (mkOptions None None false (Some (js "s.")))).
  - reflexivity.
  - reflexivity.
  - discriminate.
Defined.

(** X8: called with options that have no [ignorePrefix], [removePrefix]
    makes its pattern from the text "undefined": it returns the name
    unchanged, except for a name that begins with "undefined" and an
    upper-case letter, where reading [options.ignorePrefix.length] throws a
    TypeError. *)
Theorem removePrefix_without_prefix (name : jsstring) (opts : options) :
  ignorePrefix opts = None ->
  removePrefix name opts
  = if begins_with_and_upper (js "undefined") name
    then Throw TypeError else Ok name.
Proof.
  intros Hopt. unfold removePrefix, RegExp_test. rewrite Hopt.
  cbn [to_string]. rewrite (RegExp_literal (js "undefined") eq_refl).
  cbn [bind]. rewrite test_literal.
  destruct (begins_with_and_upper (js "undefined") name); reflexivity.
Qed.

Lemma removePrefix_without_prefix_witness :
  removePrefix (js "undefinedBehaviour") no_options = Throw TypeError.
Proof.
  apply (removePrefix_without_prefix (js "undefinedBehaviour") no_options).
  reflexivity.
Defined.

(** ** transformComponentName, continued *)

Lemma separator_char_values (style : option jsstring) (sep : ascii) :
  separator_char style = Some sep ->
  sep = "-"%char \/ sep = "."%char \/ sep = "_"%char.
Proof.
  destruct style as [s|]; [|discriminate]. unfold separator_char.
  destruct (str_eqb s (js "dash")); [intros [= <-]; auto|].
  destruct (str_eqb s (js "dot")); [intros [= <-]; auto|].
  destruct (str_eqb s (js "underscore")); [intros [= <-]; auto|].
  intros H; discriminate H.
Qed.

Lemma transformComponentName_separator (name : jsstring) (opts : options)
    (sep : ascii) :
  separator_char (nameStyle opts) = Some sep ->
  transformComponentName name opts
  = Ok (toLowerCase (insert_at_boundaries [sep] name)).
Proof.
  intros H. rewrite transformComponentName_eq. cbv zeta.
  rewrite (separator_char_get _ _ H). reflexivity.
Qed.

Lemma insert_at_boundaries_cons2 (sep : jsstring) (a b : ascii) (s : jsstring) :
  insert_at_boundaries sep (a :: b :: s)
  = if is_lower a && is_upper b
    then a :: sep ++ insert_at_boundaries sep (b :: s)
    else a :: insert_at_boundaries sep (b :: s).
Proof. reflexivity. Qed.


(** X9: with the style "dash", "dot" or "underscore",
    [transformComponentName] returns the name with the separator put at
    every place where a lower-case letter is directly followed by an
    upper-case one, all in lower case; a run of upper-case letters is not
    split. Without a style it returns the name unchanged. *)
Theorem transformComponentName_styles (name : jsstring) (opts : options) :
  (forall sep, separator_char (nameStyle opts) = Some sep ->
     transformComponentName name opts
     = Ok (toLowerCase (insert_at_boundaries [sep] name)))
  /\ (nameStyle opts = None -> transformComponentName name opts = Ok name).
Proof.
  split.
  - intros sep H. apply transformComponentName_separator, H.
  - intros H. unfold transformComponentName. rewrite H. reflexivity.
Qed.

Lemma transformComponentName_styles_witness :
  transformComponentName (js "myHTTPService")
    (mkOptions (Some (js "dash")) None false None)
  = Ok (toLowerCase (insert_at_boundaries ["-"%char] (js "myHTTPService"))).
Proof.
  apply (proj1 (transformComponentName_styles (js "myHTTPService")
                  (mkOptions (Some (js "dash")) None false None))).
  reflexivity.
Defined.

(** X10: with the style "dash", "dot" or "underscore" the result of
    [transformComponentName] has no upper-case letter. *)
Theorem transformComponentName_lower_cased
    (name : jsstring) (opts : options) (sep : ascii) :
  separator_char (nameStyle opts) = Some sep ->
  exists r, transformComponentName name opts = Ok r /\ lower_cased r = true.
Proof.
  intros H. rewrite (transformComponentName_separator name opts sep H).
  eexists. split; [reflexivity | apply toLowerCase_lower_cased].
Qed.

Lemma transformComponentName_lower_cased_witness :
  exists r,
    transformComponentName (js "AvengerProfile")
      (mkOptions (Some (js "dot")) None false None) = Ok r
    /\ lower_cased r = true.
Proof.
  apply (transformComponentName_lower_cased (js "AvengerProfile")
           (mkOptions (Some (js "dot")) None false None) "."%char).
  reflexivity.
Defined.

Lemma toLowerCase_separator (sep c : ascii) :
  sep = "-"%char \/ sep = "."%char \/ sep = "_"%char ->
  Ascii.eqb (char_toLowerCase c) sep = Ascii.eqb c sep.
Proof.
  intros [-> | [-> | ->]];
    destruct c as [[] [] [] [] [] [] [] []]; reflexivity.
Qed.

Lemma remove_char_cons (c x : ascii) (s : jsstring) :
  remove_char c (x :: s)
  = if Ascii.eqb x c then remove_char c s else x :: remove_char c s.
Proof. unfold remove_char. simpl. destruct (Ascii.eqb x c); reflexivity. Qed.

Lemma remove_char_insert (sep : ascii) (s : jsstring) :
  sep = "-"%char \/ sep = "."%char \/ sep = "_"%char ->
  remove_char sep (toLowerCase (insert_at_boundaries [sep] s))
  = remove_char sep (toLowerCase s).
Proof.
  intros Hsep. induction s as [|a s IH]; [reflexivity|].
  destruct s as [|b s]; [reflexivity|].
  rewrite insert_at_boundaries_cons2.
  change (toLowerCase (a :: b :: s))
    with (char_toLowerCase a :: toLowerCase (b :: s)).
  destruct (is_lower a && is_upper b).
  - change (toLowerCase (a :: [sep] ++ insert_at_boundaries [sep] (b :: s)))
      with (char_toLowerCase a :: char_toLowerCase sep
            :: toLowerCase (insert_at_boundaries [sep] (b :: s))).
    rewrite !(remove_char_cons sep (char_toLowerCase a)).
    rewrite (remove_char_cons sep (char_toLowerCase sep)).
    rewrite (toLowerCase_separator sep sep Hsep), Ascii.eqb_refl, IH.
    reflexivity.
  - change (toLowerCase (a :: insert_at_boundaries [sep] (b :: s)))
      with (char_toLowerCase a
            :: toLowerCase (insert_at_boundaries [sep] (b :: s))).
    rewrite !(remove_char_cons sep (char_toLowerCase a)), IH. reflexivity.
Qed.

(** X11: [transformComponentName] adds separators and changes case, and
    nothing else: with a separator style, the result without its
    separators is the lower-cased name without its separators, so no
    character of the name is lost, added or moved. *)
Theorem transformComponentName_keeps_characters
    (name : jsstring) (opts : options) (sep : ascii) :
  separator_char (nameStyle opts) = Some sep ->
  exists r,
    transformComponentName name opts = Ok r
    /\ remove_char sep r = remove_char sep (toLowerCase name).
Proof.
  intros H. rewrite (transformComponentName_separator name opts sep H).
  eexists. split; [reflexivity|].
  apply remove_char_insert, (separator_char_values _ _ H).
Qed.

Lemma transformComponentName_keeps_characters_witness :
  exists r,
    transformComponentName (js "appUtils")
      (mkOptions (Some (js "dash")) None false None) = Ok r
    /\ remove_char "-" r = remove_char "-" (toLowerCase (js "appUtils")).
Proof.
  apply (transformComponentName_keeps_characters (js "appUtils")
           (mkOptions (Some (js "dash")) None false None) "-"%char).
  reflexivity.
Defined.




(** ** createExpectedName, continued *)

Lemma createExpectedName_separator_witness :
  createExpectedName (js "SomeController") (js "controller")
    (mkOptions None (Some (js "underscore")) false None)
  = (n <- normalizedName (js "SomeController") (js "controller")
            (mkOptions None (Some (js "underscore")) false None) ;;
     Ok (n ++ ["_"%char] ++ js "controller" ++ fileEnding)).
Proof.
  apply (proj1 (createExpectedName_separator (js "SomeController")
                  (js "controller")
                  (mkOptions None (Some (js "underscore")) false None))).
  reflexivity.
Defined.


Lemma separator_char_present (style : option jsstring) (sep : ascii) :
  separator_char style = Some sep -> present style = true.
Proof.
  destruct style as [[|c s]|]; [discriminate | reflexivity | discriminate].
Qed.

Lemma lower_cased_app (a b : jsstring) :
  lower_cased (a ++ b) = lower_cased a && lower_cased b.
Proof. apply forallb_app. Qed.

Lemma normalizedName_total (name type : jsstring) (opts : options) :
  type <> [] ->
  (forall p, ignorePrefix opts = Some p -> literal_text p = true) ->
  exists n, normalizedName name type opts = Ok n.
Proof.
  intros Htype Hp.
  destruct (createExpectedName_total name type opts Htype Hp) as [e He].
  rewrite createExpectedName_eq in He.
  destruct (normalizedName name type opts) as [n| |];
    [eauto | discriminate | discriminate].
Qed.

(** X13: for a type token that is not empty and a prefix (if any) without
    syntax characters of regular expressions, [createExpectedName] returns:
    its result is the normalized name, then what the type separator
    contributes, then ".js". *)
Theorem createExpectedName_returns_file_name
    (name type : jsstring) (opts : options) :
  type <> [] ->
  (forall p, ignorePrefix opts = Some p -> literal_text p = true) ->
  exists n middle,
    normalizedName name type opts = Ok n
    /\ createExpectedName name type opts = Ok (n ++ middle ++ fileEnding).
Proof.
  intros Htype Hp.
  destruct (normalizedName_total name type opts Htype Hp) as [n Hn].
  rewrite createExpectedName_eq, Hn. cbn [bind]. cbv zeta.
  destruct (negb (is_undefined _)).
  - exists n,
      (to_string (get separators (property_key (typeSeparator opts))) ++ type).
    split; [reflexivity|]. f_equal. rewrite <- !app_assoc. reflexivity.
  - exists n, []. split; reflexivity.
Qed.

Lemma createExpectedName_returns_file_name_witness :
  exists n middle,
    normalizedName (js "xpAssetService") (js "service")
      (mkOptions (Some (js "dash")) (Some (js "dot")) true (Some (js "xp")))
    = Ok n
    /\ createExpectedName (js "xpAssetService") (js "service")
         (mkOptions (Some (js "dash")) (Some (js "dot")) true (Some (js "xp")))
       = Ok (n ++ middle ++ fileEnding).
Proof.
  apply (createExpectedName_returns_file_name (js "xpAssetService") (js "service")
           (mkOptions (Some (js "dash")) (Some (js "dot")) true (Some (js "xp")))).
  - discriminate.
  - intros p [= <-]. reflexivity.
Defined.

Lemma normalizedName_lower_cased
    (name type n : jsstring) (opts : options) (sep : ascii) :
  separator_char (nameStyle opts) = Some sep ->
  normalizedName name type opts = Ok n ->
  lower_cased n = true.
Proof.
  intros Hstyle. unfold normalizedName.
  rewrite (separator_char_present _ _ Hstyle).
  destruct (if ignoreTypeSuffix opts then _ else _) as [n1| |];
    cbn [bind]; try discriminate.
  destruct (match ignorePrefix opts with Some _ => _ | None => _ end)
    as [n2| |]; cbn [bind]; try discriminate.
  rewrite (transformComponentName_separator n2 opts sep Hstyle).
  intros [= <-]. apply toLowerCase_lower_cased.
Qed.

(** X15: with a name style, and a type separator that is absent or one of
    the three, the expected file name of a lower-case type token has no
    upper-case letter. *)
Theorem createExpectedName_lower_cased
    (name type expectedName : jsstring) (opts : options) (sep : ascii) :
  separator_char (nameStyle opts) = Some sep ->
  typeSeparator opts = None
  \/ (exists typeSep, separator_char (typeSeparator opts) = Some typeSep) ->
  lower_cased type = true ->
  createExpectedName name type opts = Ok expectedName ->
  lower_cased expectedName = true.
Proof.
  intros Hstyle Hsep Htype Hrun.
  rewrite createExpectedName_eq in Hrun. cbv zeta in Hrun.
  destruct (normalizedName name type opts) as [n| |] eqn:Hn;
    cbn [bind] in Hrun; try discriminate.
  pose proof (normalizedName_lower_cased _ _ _ _ _ Hstyle Hn) as Hlow.
  destruct Hsep as [Hnone | [typeSep Hsome]].
  - rewrite Hnone in Hrun. cbn in Hrun. injection Hrun as <-.
    rewrite lower_cased_app, Hlow. reflexivity.
  - rewrite (separator_char_get _ _ Hsome) in Hrun.
    cbn [is_undefined negb to_string] in Hrun. injection Hrun as <-.
    unfold lower_cased in *. rewrite !forallb_app. cbn [app forallb].
    rewrite Hlow, Htype.
    destruct (separator_char_values _ _ Hsome) as [-> | [-> | ->]]; reflexivity.
Qed.

Lemma createExpectedName_lower_cased_witness :
  lower_cased (js "avanger-profile.directive.js") = true.
Proof.
  apply (createExpectedName_lower_cased (js "AvangerProfile") (js "directive")
           (js "avanger-profile.directive.js")
           (mkOptions (Some (js "dash")) (Some (js "dot")) false None) "-"%char).
  - reflexivity.
  - right. exists "."%char. reflexivity.
  - reflexivity.
  - reflexivity.
Defined.



(** ** The rule, continued *)


Lemma own_property_none (o : object_literal) (key : jsstring) :
  ~ In key (map fst o) -> own_property o key = None.
Proof.
  induction o as [|[k w] o IH]; simpl; [reflexivity|].
  intros H. destruct (str_eqb k key) eqn:E.
  - apply str_eqb_eq in E. tauto.
  - apply IH. tauto.
Qed.






(** X19: a member call whose method name is neither one of the nine kinds
    of the table nor the name of a member of [Object.prototype] (such as
    [app.config], [app.run] or [promise.then]) is skipped, whatever the
    options are, also options for which [createExpectedName] would throw. *)
Theorem CallExpression_unknown_kind_skipped
    (isAngularComponent : node -> bool) (isMemberExpression : callee -> bool)
    (opts : options) (filename : jsstring) (n : node) :
  ~ In (property_name (node_callee n)) (map fst componentTypeMappings) ->
  object_prototype_get (property_name (node_callee n)) = VUndefined ->
  CallExpression isAngularComponent isMemberExpression opts filename n
  = Ok Skipped.
Proof.
  intros Hkey Hproto. unfold CallExpression, get.
  rewrite (own_property_none _ _ Hkey), Hproto.
  destruct (isAngularComponent n && isMemberExpression (node_callee n));
    reflexivity.
Qed.

Lemma CallExpression_unknown_kind_skipped_witness :
  CallExpression always always (mkOptions None None false (Some (js "(")))
    (js "app.js") (mkNode (mkCallee (js "config") (Some (js "app"))) (js "x"))
  = Ok Skipped.
Proof.
  apply (CallExpression_unknown_kind_skipped always always
           (mkOptions None None false (Some (js "("))) (js "app.js")
           (mkNode (mkCallee (js "config") (Some (js "app"))) (js "x"))).
  - simpl. intros H. repeat (destruct H as [H|H]; [discriminate H|]). exact H.
  - reflexivity.
Defined.

Lemma last_segment_plain (segment last file : jsstring) :
  ~ In "/"%char file ->
  last_segment segment last file
  = match segment ++ file with [] => last | _ => segment ++ file end.
Proof.
  revert segment; induction file as [|c file IH]; intros segment Hno.
  - simpl. rewrite app_nil_r. reflexivity.
  - simpl in Hno. cbn [last_segment].
    destruct (Ascii.eqb_spec c "/"%char) as [->|Hc]; [tauto|].
    rewrite IH by tauto. rewrite <- app_assoc. simpl.
    destruct segment; reflexivity.
Qed.

Lemma last_segment_directory (dir file : jsstring) :
  file <> [] ->
  ~ In "/"%char file ->
  forall segment last,
    last_segment segment last (dir ++ "/"%char :: file) = file.
Proof.
  intros Hfile Hno. induction dir as [|c dir IH]; intros segment last.
  - cbn [app last_segment]. rewrite Ascii.eqb_refl.
    rewrite last_segment_plain by exact Hno. simpl.
    destruct file; [congruence | reflexivity].
  - cbn [app last_segment]. destruct (Ascii.eqb c "/"%char); apply IH.
Qed.

(** X20: the rule looks at the base name of the file only: for a file name
    that is not empty and has no slash, the rule of a context with that
    file in any directory is the rule of a context with the bare file
    name. *)
Theorem rule_ignores_directory
    (isAngularComponent : node -> bool) (isMemberExpression : callee -> bool)
    (options0 : option options) (dir file : jsstring) (n : node) :
  file <> [] ->
  ~ In "/"%char file ->
  rule isAngularComponent isMemberExpression
    (mkContext options0 (dir ++ "/"%char :: file)) n
  = rule isAngularComponent isMemberExpression (mkContext options0 file) n.
Proof.
  intros Hfile Hno. unfold rule, basename. cbn [getFilename].
  rewrite (last_segment_directory dir file Hfile Hno).
  rewrite last_segment_plain by exact Hno. simpl.
  destruct file; [congruence | reflexivity].
Qed.

Lemma rule_ignores_directory_witness :
  rule always always (mkContext None (js "src/app" ++ "/"%char :: js "filters.js"))
    (mkNode (mkCallee (js "filter") (Some (js "app"))) (js "myFilter"))
  = rule always always (mkContext None (js "filters.js"))
      (mkNode (mkCallee (js "filter") (Some (js "app"))) (js "myFilter")).
Proof.
  apply (rule_ignores_directory always always None (js "src/app")
           (js "filters.js")).
  - discriminate.
  - simpl. intros H. repeat (destruct H as [H|H]; [discriminate H|]). exact H.
Defined.

(** ** The angularelement rule *)


